(** * homework_bot: the poll-detect-notify loop of [homework.py]

    A shallow embedding of [src/homework.py] and [src/exceptions.py].

    - Python values that [response.json()] can produce are the type [pyval].
    - Exceptions are the type [exn]; every constructor stands for a subclass
      of Python's [Exception] ([SystemExit] and [KeyboardInterrupt] derive
      from [BaseException] and are not values of [exn]).
    - A Python function is a computation in the monad [M S A]: it reads and
      writes the local variables [S] of the frame it runs in, appends to the
      trace of observable events (log records, HTTP requests, Telegram calls,
      sleeps) and either returns a value or raises.
    - The outside world is an input: what [requests.get] answers, what
      [bot.send_message] does, what [time.time()] reads.
    - Python's builtin [repr] is a parameter of the development. *)

From Stdlib Require Import ZArith List String Ascii Bool Lia.
From Stdlib Require Import Floats.SpecFloat DecimalString.
Import ListNotations.
Local Open Scope string_scope.
#[local] Set Warnings "-register-all".

(** ** Python values *)

(** The values [json.loads] builds: [None], [bool], [int], [float], [str],
    [list] and [dict] with string keys.  A [dict] is kept as its list of
    entries; [dict_get] reads the first entry of a key. *)
Inductive pyval : Type :=
| PNone
| PBool (b : bool)
| PInt (n : Z)
| PFloat (x : spec_float)
| PStr (s : string)
| PList (items : list pyval)
| PDict (entries : list (string * pyval)).

Fixpoint dict_get (entries : list (string * pyval)) (key : string) : option pyval :=
  match entries with
  | [] => None
  | (k, v) :: rest => if k =? key then Some v else dict_get rest key
  end.

Definition dict_has (entries : list (string * pyval)) (key : string) : bool :=
  match dict_get entries key with Some _ => true | None => false end.

(** [type(v).__name__] *)
Definition type_name (v : pyval) : string :=
  match v with
  | PNone => "NoneType"
  | PBool _ => "bool"
  | PInt _ => "int"
  | PFloat _ => "float"
  | PStr _ => "str"
  | PList _ => "list"
  | PDict _ => "dict"
  end.

(** [isinstance(v, dict)] and [isinstance(v, list)] *)
Definition is_dict (v : pyval) : bool :=
  match v with PDict _ => true | _ => false end.

Definition is_list (v : pyval) : bool :=
  match v with PList _ => true | _ => false end.

(** The characters that a Rocq string literal cannot hold directly. *)
Definition dquote : string := String (ascii_of_nat 34) EmptyString.
Definition newline : string := String (ascii_of_nat 10) EmptyString.

(** [bool(v)], the test that [if v:] makes. *)
Definition truthy (v : pyval) : bool :=
  match v with
  | PNone => false
  | PBool b => b
  | PInt n => negb (n =? 0)%Z
  | PFloat (S754_zero _) => false
  | PFloat _ => true
  | PStr EmptyString => false
  | PStr _ => true
  | PList [] => false
  | PList _ => true
  | PDict [] => false
  | PDict _ => true
  end.

(** A [str] is held as its UTF-8 bytes; the bytes [10xxxxxx] continue the
    code point that the byte before them starts. *)
Definition is_continuation (c : ascii) : bool :=
  match c with
  | Ascii _ _ _ _ _ _ false true => true
  | _ => false
  end.

Fixpoint leading_continuation (s : string) : string :=
  match s with
  | String c rest =>
      if is_continuation c then String c (leading_continuation rest) else EmptyString
  | EmptyString => EmptyString
  end.

(** [needle in haystack] on two [str] values. *)
Fixpoint str_contains (needle haystack : string) : bool :=
  if prefix needle haystack then true
  else match haystack with
       | EmptyString => false
       | String _ rest => str_contains needle rest
       end.

(** ** Exceptions *)

(** [exceptions.py] declares [EnvironmentVariableDoesNotExist] and
    [EndpointDisable]; the others are raised by the interpreter or by the
    libraries.  [KeyError] carries its argument, the others the text that
    [str(error)] gives. *)
Inductive exn : Type :=
| TypeError (msg : string)
| KeyError (arg : pyval)
| AttributeError (msg : string)
| IndexError (msg : string)
| EnvironmentVariableDoesNotExist (msg : string)
| EndpointDisable (msg : string)
| RequestException (text : string)
| JSONDecodeError (text : string)
| OtherException (text : string).

(** [isinstance(error, requests.RequestException)]: in [requests] the class
    [JSONDecodeError] derives from [RequestException]. *)
Definition is_request_exception (error : exn) : bool :=
  match error with
  | RequestException _ | JSONDecodeError _ => true
  | _ => false
  end.

(** ** Observable events *)

Inductive level : Type := DEBUG | INFO | ERROR | CRITICAL.

Inductive event : Type :=
| Log (lvl : level) (msg : string)
| HttpGet (url : string) (authorization : string) (from_date : pyval)
| BotSend (chat_id : string) (text : string)
| Sleep (seconds : Z).

Definition trace : Type := list event.

(** ** The monad of Python computations *)

Definition M (S A : Type) : Type := S -> (exn + A) * S * trace.

Definition ret {S A : Type} (a : A) : M S A :=
  fun s => (inr a, s, []).

Definition raise {S A : Type} (e : exn) : M S A :=
  fun s => (inl e, s, []).

Definition bind {S A B : Type} (m : M S A) (k : A -> M S B) : M S B :=
  fun s =>
    match m s with
    | (inl e, s1, t1) => (inl e, s1, t1)
    | (inr a, s1, t1) =>
        match k a s1 with
        | (r, s2, t2) => (r, s2, (t1 ++ t2)%list)
        end
    end.

(** [try: body  except Exception as error: handler error].  A handler for a
    narrower class re-raises what it does not catch. *)
Definition try_except {S A : Type} (body : M S A) (handler : exn -> M S A) : M S A :=
  fun s =>
    match body s with
    | (inl e, s1, t1) =>
        match handler e s1 with
        | (r, s2, t2) => (r, s2, (t1 ++ t2)%list)
        end
    | (inr a, s1, t1) => (inr a, s1, t1)
    end.

Definition emit {S : Type} (ev : event) : M S unit :=
  fun s => (inr tt, s, [ev]).

Definition read {S A : Type} (field : S -> A) : M S A :=
  fun s => (inr (field s), s, []).

Definition assign {S : Type} (update : S -> S) : M S unit :=
  fun s => (inr tt, update s, []).

Declare Scope py_scope.
Delimit Scope py_scope with py.
Notation "x <- m ;; k" := (bind m (fun x => k))
  (at level 61, m at next level, right associativity) : py_scope.
Notation "m ;; k" := (bind m (fun _ => k))
  (at level 61, right associativity) : py_scope.
Local Open Scope py_scope.

Definition result_of {S A : Type} (m : M S A) (s : S) : exn + A := fst (fst (m s)).
Definition state_of {S A : Type} (m : M S A) (s : S) : S := snd (fst (m s)).
Definition trace_of {S A : Type} (m : M S A) (s : S) : trace := snd (m s).

(** [logging.debug], [logging.info], [logging.error], [logging.critical] *)
Definition logging {S : Type} (lvl : level) (msg : string) : M S unit :=
  emit (Log lvl msg).

(** ** Operations of the interpreter *)

(** [v[key]] with a [str] key; the [TypeError] texts are CPython's. *)
Definition getitem {S : Type} (v : pyval) (key : string) : M S pyval :=
  match v with
  | PDict entries =>
      match dict_get entries key with
      | Some x => ret x
      | None => raise (KeyError (PStr key))
      end
  | PList _ => raise (TypeError "list indices must be integers or slices, not str")
  | PStr _ => raise (TypeError "string indices must be integers, not 'str'")
  | _ => raise (TypeError ("'" ++ type_name v ++ "' object is not subscriptable"))
  end.

(** [v[0]] *)
Definition getitem0 {S : Type} (v : pyval) : M S pyval :=
  match v with
  | PList (x :: _) => ret x
  | PList [] => raise (IndexError "list index out of range")
  | PStr (String c rest) => ret (PStr (String c (leading_continuation rest)))
  | PStr EmptyString => raise (IndexError "string index out of range")
  | PDict _ => raise (KeyError (PInt 0))
  | _ => raise (TypeError ("'" ++ type_name v ++ "' object is not subscriptable"))
  end.

(** [key in v] with a [str] key. *)
Definition contains {S : Type} (key : string) (v : pyval) : M S bool :=
  match v with
  | PDict entries => ret (dict_has entries key)
  | PList items =>
      ret (existsb (fun x => match x with PStr s => s =? key | _ => false end) items)
  | PStr s => ret (str_contains key s)
  | _ => raise (TypeError ("argument of type '" ++ type_name v ++ "' is not iterable"))
  end.

(** [v.get(key)] *)
Definition dot_get {S : Type} (v : pyval) (key : string) : M S pyval :=
  match v with
  | PDict entries =>
      match dict_get entries key with
      | Some x => ret x
      | None => ret PNone
      end
  | _ => raise (AttributeError ("'" ++ type_name v ++ "' object has no attribute 'get'"))
  end.

(** ** Module constants *)

Record config : Type := {
  PRACTICUM_TOKEN : string;
  TELEGRAM_TOKEN : string;
  TELEGRAM_CHAT_ID : string
}.

Definition RETRY_PERIOD : Z := 600.
Definition ENDPOINT : string :=
  "https://practicum.yandex.ru/api/user_api/homework_statuses/".
Definition HEADERS (cfg : config) : string := "OAuth " ++ PRACTICUM_TOKEN cfg.

Definition HOMEWORK_VERDICTS : list (string * string) :=
  [ ("approved", "Работа проверена: ревьюеру всё понравилось. Ура!");
    ("reviewing", "Работа взята на проверку ревьюером.");
    ("rejected", "Работа проверена: у ревьюера есть замечания.") ].

Fixpoint verdict_lookup (table : list (string * string)) (key : string) : option string :=
  match table with
  | [] => None
  | (k, v) :: rest => if k =? key then Some v else verdict_lookup rest key
  end.

(** ** check_response *)

Definition check_response {S : Type} (response : pyval) : M S pyval :=
  if negb (is_dict response) then
    raise (TypeError "Ответ API не соответствует типу 'dict'.")
  else
    has_homeworks <- contains "homeworks" response ;;
    if negb has_homeworks then
      raise (KeyError (PStr "Ответ API не содержит ключа 'homeworks'"))
    else
      has_current_date <- contains "current_date" response ;;
      if negb has_current_date then
        raise (KeyError (PStr "Ответ API не содержит ключа 'current_date'"))
      else
        homeworks <- getitem response "homeworks" ;;
        if negb (is_list homeworks) then
          raise (TypeError "Данные ключа 'homeworks' не соответствует типу 'list'.")
        else
          dot_get response "homeworks".

(** ** The outside world *)

(** What [requests.get] hands back: the fields of the response object that
    [get_api_answer] reads, [json] being what [response.json()] does. *)
Record http_response : Type := {
  status_code : Z;
  text : string;
  json : exn + pyval
}.

(** What [requests.get] does when asked with a [from_date]. *)
Definition network : Type := pyval -> exn + http_response.

(** What [bot.send_message chat_id text] does: [None] when the message is
    delivered, [Some error] when the call raises. *)
Definition transport : Type := string -> string -> option exn.

(** The world during one iteration of the [while] loop of [main]. *)
Record cycle_env : Type := {
  net : network;
  bot : transport
}.

Definition requests_get {S : Type} (world : network)
    (url authorization : string) (from_date : pyval) : M S http_response :=
  emit (HttpGet url authorization from_date) ;;
  match world from_date with
  | inl error => raise error
  | inr response => ret response
  end.

Definition response_json {S : Type} (response : http_response) : M S pyval :=
  match json response with
  | inl error => raise error
  | inr value => ret value
  end.

Definition bot_send_message {S : Type} (world : transport)
    (chat_id message : string) : M S unit :=
  emit (BotSend chat_id message) ;;
  match world chat_id message with
  | Some error => raise error
  | None => ret tt
  end.

(** [requests.JSONDecodeError(msg)]: the constructor hands its arguments to
    [json.JSONDecodeError.__init__(msg, doc, pos)], which raises for want of
    [doc] and [pos]; the text is CPython's. *)
Definition new_JSONDecodeError {S : Type} (msg : string) : M S exn :=
  raise (TypeError
           "JSONDecodeError.__init__() missing 2 required positional arguments: 'doc' and 'pos'").

(** [time.sleep] *)
Definition time_sleep {S : Type} (seconds : Z) : M S unit :=
  emit (Sleep seconds).

(** ** The functions of homework.py *)

(** The local variables of [main] that the loop reads and writes. *)
Record locals : Type := {
  timestamp : pyval;
  previous_error_message : string;
  previous_message : string
}.

Definition set_timestamp (v : pyval) (vars : locals) : locals :=
  {| timestamp := v;
     previous_error_message := previous_error_message vars;
     previous_message := previous_message vars |}.

Definition set_previous_error_message (m : string) (vars : locals) : locals :=
  {| timestamp := timestamp vars;
     previous_error_message := m;
     previous_message := previous_message vars |}.

Definition set_previous_message (m : string) (vars : locals) : locals :=
  {| timestamp := timestamp vars;
     previous_error_message := previous_error_message vars;
     previous_message := m |}.

(** Proof steps shared by the lemmas on the monad: unfold its operations,
    then split on the first test that blocks the computation. *)
Ltac unfold_monad :=
  cbv beta iota delta
    [bind ret raise try_except emit read assign logging time_sleep
     result_of state_of trace_of fst snd].

Ltac split_match :=
  match goal with
  | |- context [match ?x with _ => _ end] =>
      lazymatch x with
      | context [match _ with _ => _ end] => fail
      | _ => destruct x eqn:?
      end
  end.

Ltac frame_cases := repeat (unfold_monad; try reflexivity; split_match).

Section Homework.

(** Python's builtin [repr]. *)
Variable repr : pyval -> string.

(** The constructor [telegram.Bot(token=...)]: it returns the bot ([None])
    or raises ([Some error]); the library decides which tokens it
    refuses. *)
Variable telegram_Bot : string -> option exn.

(** [str(v)], what an f-string puts for [{v}]. *)
Definition str (v : pyval) : string :=
  match v with
  | PStr s => s
  | _ => repr v
  end.

(** [str(error)]: a [KeyError] shows the [repr] of its argument. *)
Definition str_exn (error : exn) : string :=
  match error with
  | KeyError arg => repr arg
  | TypeError msg | AttributeError msg | IndexError msg
  | EnvironmentVariableDoesNotExist msg | EndpointDisable msg
  | RequestException msg | JSONDecodeError msg | OtherException msg => msg
  end.

Definition env_vars (cfg : config) : list (string * string) :=
  [ ("PRACTICUM_TOKEN", PRACTICUM_TOKEN cfg);
    ("TELEGRAM_TOKEN", TELEGRAM_TOKEN cfg);
    ("TELEGRAM_CHAT_ID", TELEGRAM_CHAT_ID cfg) ].

(** The [for var in env_vars] loop of [check_tokens]. *)
Fixpoint check_tokens_from {S : Type} (vars : list (string * string)) : M S unit :=
  match vars with
  | [] => ret tt
  | (var, value) :: rest =>
      if negb (truthy (PStr value)) then
        raise (EnvironmentVariableDoesNotExist
                 ("Отсутствует обязательная переменная окружения: '" ++ var ++ "'."))
      else check_tokens_from rest
  end.

Definition check_tokens {S : Type} (cfg : config) : M S unit :=
  check_tokens_from (env_vars cfg).

Definition send_message {S : Type} (cfg : config) (world : transport)
    (message : string) : M S unit :=
  try_except
    (bot_send_message world (TELEGRAM_CHAT_ID cfg) message ;;
     logging DEBUG ("Сообщение отправлено в Telegram: '" ++ message ++ "' "))
    (fun error =>
       logging ERROR ("Cбой при отправке сообщения в Telegram: '" ++ str_exn error ++ "'")).

Definition get_api_answer {S : Type} (cfg : config) (world : network)
    (timestamp : pyval) : M S pyval :=
  response <-
    try_except
      (requests_get world ENDPOINT (HEADERS cfg) timestamp)
      (fun error =>
         if is_request_exception error then
           raise (EndpointDisable ("Неуспешный запрос: '" ++ str_exn error ++ "'."))
         else raise error) ;;
  if negb (status_code response =? 200)%Z then
    raise (EndpointDisable
             ("Endpoint не доступен, HTTPStatus: " ++ str (PInt (status_code response))))
  else
    logging INFO (text response) ;;
    try_except
      (response_json response)
      (fun error =>
         match error with
         | JSONDecodeError _ =>
             built <- new_JSONDecodeError
                        ("Ошибка преобразования в JSON: " ++ str_exn error) ;;
             raise built
         | _ => raise error
         end).

(** [v in HOMEWORK_VERDICTS]: hashes [v], then compares it with the keys. *)
Definition in_verdicts {S : Type} (v : pyval) : M S bool :=
  match v with
  | PList _ | PDict _ => raise (TypeError ("unhashable type: '" ++ type_name v ++ "'"))
  | PStr s =>
      ret (match verdict_lookup HOMEWORK_VERDICTS s with Some _ => true | None => false end)
  | _ => ret false
  end.

(** [HOMEWORK_VERDICTS[v]] *)
Definition verdicts_getitem {S : Type} (v : pyval) : M S string :=
  match v with
  | PList _ | PDict _ => raise (TypeError ("unhashable type: '" ++ type_name v ++ "'"))
  | PStr s =>
      match verdict_lookup HOMEWORK_VERDICTS s with
      | Some verdict => ret verdict
      | None => raise (KeyError v)
      end
  | _ => raise (KeyError v)
  end.

Definition parse_status {S : Type} (homework : pyval) : M S string :=
  logging INFO (str homework) ;;
  has_name <- contains "homework_name" homework ;;
  if negb has_name then
    raise (KeyError (PStr "Ключ 'homework_name' отсутствует в 'homework'"))
  else
    status <- dot_get homework "status" ;;
    known <- in_verdicts status ;;
    if negb known then
      shown <- getitem homework "status" ;;
      raise (KeyError (PStr ("Неизвестный статус: '" ++ str shown ++ "'")))
    else
      homework_name <- dot_get homework "homework_name" ;;
      lesson_name <- dot_get homework "lesson_name" ;;
      status <- dot_get homework "status" ;;
      verdict <- verdicts_getitem status ;;
      ret ("Изменился статус проверки работы " ++ dquote ++ str homework_name ++ dquote
           ++ "." ++ newline
           ++ "Спринт " ++ dquote ++ str lesson_name ++ dquote ++ "." ++ newline
           ++ verdict).

(** The [try] block of the [while] loop of [main]. *)
Definition main_try (cfg : config) (env : cycle_env) : M locals unit :=
  from_date <- read timestamp ;;
  logging INFO ("Timestamp for checking " ++ str from_date) ;;
  response <- get_api_answer cfg (net env) from_date ;;
  current_date <- getitem response "current_date" ;;
  assign (set_timestamp current_date) ;;
  next_date <- read timestamp ;;
  logging INFO ("Timestamp for next checking " ++ str next_date) ;;
  homeworks <- check_response response ;;
  if truthy homeworks then
    homework <- getitem0 homeworks ;;
    message <- parse_status homework ;;
    previous <- read previous_message ;;
    if negb (message =? previous) then
      send_message cfg (bot env) message ;;
      assign (set_previous_message message)
    else ret tt
  else
    logging DEBUG "Домашняя работа отсутствует или ее статус не изменился.".

(** The text that the [except] block builds from the caught exception. *)
Definition failure_text (error : exn) : string :=
  "Сбой в работе программы: " ++ str_exn error.

(** The [except Exception as error] block of the loop. *)
Definition main_except (cfg : config) (env : cycle_env) (error : exn) : M locals unit :=
  let message := failure_text error in
  logging ERROR message ;;
  previous <- read previous_error_message ;;
  if negb (previous =? message) then
    send_message cfg (bot env) message ;;
    assign (set_previous_error_message message)
  else ret tt.

(** One iteration of [while True]. *)
Definition main_cycle (cfg : config) (env : cycle_env) : M locals unit :=
  try_except (main_try cfg env) (main_except cfg env) ;;
  time_sleep RETRY_PERIOD.

(** The first [length cycles] iterations of [while True]; the loop has no
    exit of its own. *)
Fixpoint main_loop (cfg : config) (cycles : list cycle_env) : M locals unit :=
  match cycles with
  | [] => ret tt
  | env :: rest => main_cycle cfg env ;; main_loop cfg rest
  end.

(** How far [main] got: [exit()] was called, an exception left [main], or
    the loop is running with these local variables. *)
Inductive main_end : Type :=
| Halted
| Crashed (error : exn)
| Polling (vars : locals).

(** The [try] around [check_tokens]; it returns [true] when [exit()] is
    called. *)
Definition main_check (cfg : config) : M unit bool :=
  try_except
    (check_tokens cfg ;; ret false)
    (fun error =>
       match error with
       | EnvironmentVariableDoesNotExist _ =>
           logging CRITICAL (str_exn error ++ " Программа принудительно остановлена.") ;;
           ret true
       | _ => raise error
       end).

(** [main], given the reading of [time.time()], the transport at the time of
    the first message and the world of each iteration.  [logging.basicConfig]
    only formats the log; an exception of the constructor [telegram.Bot]
    leaves [main]. *)
Definition main (cfg : config) (clock : Z) (greeting : transport)
    (cycles : list cycle_env) : main_end * trace :=
  match main_check cfg tt with
  | (inl error, _, t) => (Crashed error, t)
  | (inr true, _, t) => (Halted, t)
  | (inr false, _, t) =>
      match telegram_Bot (TELEGRAM_TOKEN cfg) with
      | Some error => (Crashed error, t)
      | None =>
          let t1 :=
            trace_of (send_message cfg greeting
                        ("Проверяю статус домашней работы каждые "
                         ++ str (PInt RETRY_PERIOD) ++ " секунд")) tt in
          let vars := {| timestamp := PInt clock;
                         previous_error_message := EmptyString;
                         previous_message := EmptyString |} in
          match main_loop cfg cycles vars with
          | (inl error, _, t2) => (Crashed error, (t ++ t1 ++ t2)%list)
          | (inr _, final, t2) => (Polling final, (t ++ t1 ++ t2)%list)
          end
      end
  end.

(** ** What a run shows *)

(** The texts handed to [bot.send_message], in order.  Every call of
    [send_message] makes exactly one such call ([send_message_run]). *)
Definition bot_sends (t : trace) : list string :=
  flat_map (fun ev => match ev with BotSend _ message => [message] | _ => [] end) t.

(** The requests made to the status API. *)
Definition http_gets (t : trace) : list pyval :=
  flat_map (fun ev => match ev with HttpGet _ _ from_date => [from_date] | _ => [] end) t.

(** How the [try] block of an iteration ends, read off the functions it
    calls one after the other: it raises [error], before or after
    'current_date' was read from the response; or it finds no homework; or
    its first homework reads as [message]. *)
Inductive cycle_outcome : Type :=
| Failed (current_date : option pyval) (error : exn)
| Silent (current_date : pyval)
| Interpreted (current_date : pyval) (message : string).

(** A computation that never touches the variables of the frame it runs in:
    its result and its events are those it has in an empty frame. *)
Definition framed {A : Type} (m : forall S : Type, M S A) : Prop :=
  forall (S : Type) (s : S),
    m S s = (result_of (m unit) tt, s, trace_of (m unit) tt).

(** What a computation leaves behind, as far as the loop is concerned: its
    result, the local variables, and the texts it handed to the bot. *)
Definition summary {S A : Type} (m : M S A) (s : S) : (exn + A) * S * list string :=
  (result_of m s, state_of m s, bot_sends (trace_of m s)).

(** The local variables after the failure of a [try] block that had, or had
    not, read 'current_date' before it raised. *)
Definition after_failure (current_date : option pyval) (vars : locals) : locals :=
  match current_date with
  | Some d => set_timestamp d vars
  | None => vars
  end.

(** The rule of the specification: a text is notified when it differs from
    the last one notified, [last] at the start. *)
Fixpoint notify_on_change (last : string) (texts : list string) : list string :=
  match texts with
  | [] => []
  | text :: rest =>
      if last =? text then notify_on_change last rest
      else text :: notify_on_change text rest
  end.

(** [a] is an earlier time than [b]. *)
Definition earlier (a b : pyval) : Prop :=
  match a, b with
  | PInt x, PInt y => (x < y)%Z
  | _, _ => False
  end.

(** The response is no [dict], or a [dict] without the key 'current_date'. *)
Definition lacks_current_date (response : pyval) : Prop :=
  match response with
  | PDict entries => dict_has entries "current_date" = false
  | _ => True
  end.

(** What [check_response] raises at its test of 'current_date'. *)
Definition missing_current_date : exn :=
  KeyError (PStr "Ответ API не содержит ключа 'current_date'").

(** ** Notions on iterations and runs *)

Section Cycle.

Variable cfg : config.

(** The outcome of the iteration that asks the server with [from_date]:
    the calls of the [try] block in their order, each run in an empty
    frame. *)
Definition classify (env : cycle_env) (from_date : pyval) : cycle_outcome :=
  match result_of (get_api_answer cfg (net env) from_date) tt with
  | inl error => Failed None error
  | inr response =>
      match result_of (getitem response "current_date") tt with
      | inl error => Failed None error
      | inr current_date =>
          match result_of (check_response response) tt with
          | inl error => Failed (Some current_date) error
          | inr homeworks =>
              if truthy homeworks then
                match result_of (getitem0 homeworks) tt with
                | inl error => Failed (Some current_date) error
                | inr homework =>
                    match result_of (parse_status homework) tt with
                    | inl error => Failed (Some current_date) error
                    | inr message => Interpreted current_date message
                    end
                end
              else Silent current_date
          end
      end
  end.

(** What [get_api_answer] gives the iteration that starts with [vars]. *)
Definition fetched (env : cycle_env) (vars : locals) : exn + pyval :=
  result_of (get_api_answer cfg (net env) (timestamp vars)) tt.

(** The iteration is a successful one whose first homework reads as
    [message]: every call of the [try] block returns. *)
Definition interprets_to (env : cycle_env) (vars : locals) (message : string) : Prop :=
  exists response current_date homeworks homework,
    fetched env vars = inr response
    /\ result_of (getitem response "current_date") tt = inr current_date
    /\ result_of (check_response response) tt = inr homeworks
    /\ truthy homeworks = true
    /\ result_of (getitem0 homeworks) tt = inr homework
    /\ result_of (parse_status homework) tt = inr message.

(** The [try] block of the iteration raises, and the [except] block turns
    the exception into [text]. *)
Definition fails_with (env : cycle_env) (vars : locals) (text : string) : Prop :=
  exists error,
    result_of (main_try cfg env) vars = inl error
    /\ failure_text error = text.

(** Every iteration of the run satisfies [P] at the local variables it
    starts with. *)
Fixpoint streak (P : cycle_env -> locals -> Prop) (cycles : list cycle_env)
    (vars : locals) : Prop :=
  match cycles with
  | [] => True
  | env :: rest =>
      P env vars /\ streak P rest (state_of (main_cycle cfg env) vars)
  end.

(** The text of the failure of an iteration, when its [try] block raises. *)
Definition failure_of (env : cycle_env) (vars : locals) : option string :=
  match result_of (main_try cfg env) vars with
  | inl error => Some (failure_text error)
  | inr _ => None
  end.

(** The failure texts of a run, in order; iterations without a failure
    contribute nothing. *)
Fixpoint failure_texts (cycles : list cycle_env) (vars : locals) : list string :=
  match cycles with
  | [] => []
  | env :: rest =>
      (match failure_of env vars with Some text => [text] | None => [] end
       ++ failure_texts rest (state_of (main_cycle cfg env) vars))%list
  end.

(** The texts handed to the bot by the failing iterations of a run. *)
Fixpoint error_sends (cycles : list cycle_env) (vars : locals) : list string :=
  match cycles with
  | [] => []
  | env :: rest =>
      (match failure_of env vars with
       | Some _ => bot_sends (trace_of (main_cycle cfg env) vars)
       | None => []
       end
       ++ error_sends rest (state_of (main_cycle cfg env) vars))%list
  end.

(** The answer to the request that the iteration starting with [vars]
    makes, when 'current_date' can be read from it, holds an integer there
    that is not earlier than the cursor of that request. *)
Definition answers_no_earlier (env : cycle_env) (vars : locals) : Prop :=
  forall response current_date : pyval,
    fetched env vars = inr response ->
    result_of (getitem response "current_date") tt = inr current_date ->
    exists z',
      current_date = PInt z'
      /\ forall z, timestamp vars = PInt z -> (z <= z')%Z.

(** ** Further notions on runs *)

(** The lengths of the calls of [time.sleep]. *)
Definition sleeps (t : trace) : list Z :=
  flat_map (fun ev => match ev with Sleep seconds => [seconds] | _ => [] end) t.

(** The computation produces no event that [f] selects. *)
Definition free_of {X S A : Type} (f : event -> list X) (m : M S A) : Prop :=
  forall s, flat_map f (trace_of m s) = [].

(** None of the three tokens is empty. *)
Definition tokens_present : Prop :=
  PRACTICUM_TOKEN cfg <> EmptyString
  /\ TELEGRAM_TOKEN cfg <> EmptyString
  /\ TELEGRAM_CHAT_ID cfg <> EmptyString.

(** The text of [EnvironmentVariableDoesNotExist] for the variable [var]. *)
Definition missing_variable (var : string) : exn :=
  EnvironmentVariableDoesNotExist
    ("Отсутствует обязательная переменная окружения: '" ++ var ++ "'.").

(** The first message of [main]. *)
Definition greeting_text : string :=
  "Проверяю статус домашней работы каждые " ++ str (PInt RETRY_PERIOD) ++ " секунд".

(** The local variables of [main] when it enters the loop. *)
Definition start_vars (clock : Z) : locals :=
  {| timestamp := PInt clock;
     previous_error_message := EmptyString;
     previous_message := EmptyString |}.

(** The cursor at the start of each iteration of a run. *)
Fixpoint request_dates (cycles : list cycle_env) (vars : locals) : list pyval :=
  match cycles with
  | [] => []
  | env :: rest =>
      timestamp vars :: request_dates rest (state_of (main_cycle cfg env) vars)
  end.

(** The message of an iteration whose [try] block reads one off its first
    homework. *)
Definition message_of (env : cycle_env) (vars : locals) : option string :=
  match classify env (timestamp vars) with
  | Interpreted _ message => Some message
  | _ => None
  end.

(** The messages of a run, in order; the other iterations contribute
    nothing. *)
Fixpoint message_texts (cycles : list cycle_env) (vars : locals) : list string :=
  match cycles with
  | [] => []
  | env :: rest =>
      (match message_of env vars with Some message => [message] | None => [] end
       ++ message_texts rest (state_of (main_cycle cfg env) vars))%list
  end.

(** The texts handed to the bot by the iterations of a run that have a
    message. *)
Fixpoint message_sends (cycles : list cycle_env) (vars : locals) : list string :=
  match cycles with
  | [] => []
  | env :: rest =>
      (match message_of env vars with
       | Some _ => bot_sends (trace_of (main_cycle cfg env) vars)
       | None => []
       end
       ++ message_sends rest (state_of (main_cycle cfg env) vars))%list
  end.

(** The message that [parse_status] builds from the name, the lesson and
    the verdict. *)
Definition status_message (homework_name lesson_name : pyval) (verdict : string) : string :=
  "Изменился статус проверки работы " ++ dquote ++ str homework_name ++ dquote
  ++ "." ++ newline
  ++ "Спринт " ++ dquote ++ str lesson_name ++ dquote ++ "." ++ newline
  ++ verdict.

(** [entries.get(key)] on the entries of a [dict]. *)
Definition dict_get_or_none (entries : list (string * pyval)) (key : string) : pyval :=
  match dict_get entries key with
  | Some x => x
  | None => PNone
  end.

(** ** Sample worlds *)

(** An executable [repr] for running the model: exact on [None], booleans
    and integers, on strings of printable characters without a backslash and
    without both kinds of quote, and on lists and dicts of such values.  It
    shows every float as [float].  The theorems hold for every [repr]; this
    one only serves the concrete runs at the end. *)
Fixpoint repr_basic (v : pyval) : string :=
  match v with
  | PNone => "None"
  | PBool true => "True"
  | PBool false => "False"
  | PInt n => NilZero.string_of_int (Z.to_int n)
  | PFloat _ => "float"
  | PStr s =>
      if str_contains "'" s && negb (str_contains dquote s)
      then dquote ++ s ++ dquote
      else "'" ++ s ++ "'"
  | PList items => "[" ++ String.concat ", " (map repr_basic items) ++ "]"
  | PDict entries =>
      "{" ++ String.concat ", "
               (map (fun entry => "'" ++ fst entry ++ "': " ++ repr_basic (snd entry))
                    entries)
          ++ "}"
  end.

Definition cfg0 : config :=
  {| PRACTICUM_TOKEN := "practicum-token";
     TELEGRAM_TOKEN := "telegram-token";
     TELEGRAM_CHAT_ID := "42" |}.

(** A server that answers every request with [code] and the JSON [body]. *)
Definition answers (code : Z) (body : pyval) : network :=
  fun _ => inr {| status_code := code; text := "body"; json := inr body |}.

Definition delivering : transport := fun _ _ => None.

Definition failing : transport := fun _ _ => Some (OtherException "Timed out").

Definition homework_x (status : string) : pyval :=
  PDict [("homework_name", PStr "Project X");
         ("lesson_name", PStr "Sprint 1");
         ("status", PStr status)].

Definition response_with (homeworks : pyval) (date : Z) : pyval :=
  PDict [("homeworks", homeworks); ("current_date", PInt date)].

Definition sample_response : pyval :=
  PDict [("homeworks", PList []); ("current_date", PInt 1)].

Definition vars0 : locals :=
  {| timestamp := PInt 100;
     previous_error_message := EmptyString;
     previous_message := EmptyString |}.

Definition approved_text : string :=
  "Изменился статус проверки работы " ++ dquote ++ "Project X" ++ dquote ++ "."
  ++ newline ++ "Спринт " ++ dquote ++ "Sprint 1" ++ dquote ++ "." ++ newline
  ++ "Работа проверена: ревьюеру всё понравилось. Ура!".

Definition unavailable_text : string :=
  "Сбой в работе программы: Endpoint не доступен, HTTPStatus: 503".

Definition not_a_list_text : string :=
  "Сбой в работе программы: Данные ключа 'homeworks' не соответствует типу 'list'.".

(** The worlds of the examples. *)
Definition env_approved (world : transport) : cycle_env :=
  {| net := answers 200 (response_with (PList [homework_x "approved"]) 150);
     bot := world |}.

Definition env_unavailable (world : transport) : cycle_env :=
  {| net := answers 503 PNone; bot := world |}.

Definition env_not_a_list : cycle_env :=
  {| net := answers 200 (response_with (PStr "x") 150); bot := delivering |}.

Definition env_empty (date : Z) : cycle_env :=
  {| net := answers 200 (response_with (PList []) date); bot := delivering |}.

Definition env_no_date : cycle_env :=
  {| net := answers 200 (PDict [("homeworks", PList [])]); bot := delivering |}.

(** A constructor [telegram.Bot] that takes every token, and one that
    refuses every token. *)
Definition accepting : string -> option exn := fun _ => None.

Definition refusing : string -> option exn :=
  fun _ => Some (OtherException "Invalid token").

(** * Properties *)

(** ** Running the monad *)

Lemma bind_ret {S A B : Type} (a : A) (k : A -> M S B) (s : S) :
  bind (ret a) k s = k a s.
Proof.
  unfold bind, ret. destruct (k a s) as [[r s2] t2]. reflexivity.
Qed.

(** ** The response validator *)

(** C5, as stated, fails: the response is accepted, and what
    [check_response] returns is its list of homeworks, not the response. *)
Lemma check_response_returns_homeworks_not_response :
  result_of (check_response sample_response) tt = inr (PList [])
  /\ result_of (check_response sample_response) tt <> inr sample_response.
Proof.
  split; [reflexivity | discriminate].
Qed.

Lemma check_response_accepts
    (S : Type) (s : S) (entries : list (string * pyval)) (items : list pyval) :
  dict_get entries "homeworks" = Some (PList items) ->
  dict_has entries "current_date" = true ->
  result_of (check_response (PDict entries)) s = inr (PList items).
Proof.
  intros Hhw Hcd.
  unfold result_of, check_response, contains, getitem, dot_get, dict_has in *.
  cbn [is_dict negb].
  rewrite bind_ret, Hhw. cbn [negb].
  rewrite bind_ret.
  destruct (dict_get entries "current_date"); [| discriminate].
  cbn [negb]. rewrite bind_ret. reflexivity.
Qed.

(** C5 (amended): a [dict] that holds the keys 'homeworks' and 'current_date',
    the first bound to a list, passes [check_response], which returns that
    list itself, the value stored under 'homeworks', and not the response;
    the call writes no local variable and produces no event. *)
Theorem check_response_returns_homeworks
    (S : Type) (s : S) (entries : list (string * pyval)) (items : list pyval) :
  dict_get entries "homeworks" = Some (PList items) ->
  dict_has entries "current_date" = true ->
  check_response (PDict entries) s = (inr (PList items), s, []).
Proof.
  intros Hhw Hcd.
  unfold check_response, contains, getitem, dot_get, dict_has in *.
  cbn [is_dict negb].
  rewrite bind_ret, Hhw. cbn [negb].
  rewrite bind_ret.
  destruct (dict_get entries "current_date"); [| discriminate].
  cbn [negb]. rewrite bind_ret. reflexivity.
Qed.

(** The accepted response [sample_response]. *)
Lemma check_response_returns_homeworks_witness :
  check_response sample_response tt = (inr (PList []), tt, []).
Proof.
  apply (check_response_returns_homeworks unit tt
           [("homeworks", PList []); ("current_date", PInt 1)] []);
    reflexivity.
Defined.

(** ** Calls leave the caller's variables alone *)

Lemma getitem_framed (v : pyval) (key : string) :
  framed (fun S => @getitem S v key).
Proof.
  intros S s. unfold getitem. frame_cases.
Qed.

Lemma getitem0_framed (v : pyval) : framed (fun S => @getitem0 S v).
Proof.
  intros S s. unfold getitem0. frame_cases.
Qed.

Lemma contains_framed (key : string) (v : pyval) :
  framed (fun S => @contains S key v).
Proof.
  intros S s. unfold contains. frame_cases.
Qed.

Lemma dot_get_framed (v : pyval) (key : string) :
  framed (fun S => @dot_get S v key).
Proof.
  intros S s. unfold dot_get. frame_cases.
Qed.

Lemma check_response_framed (response : pyval) :
  framed (fun S => @check_response S response).
Proof.
  intros S s. destruct response; try reflexivity.
  unfold check_response, contains, getitem, dot_get, dict_has.
  cbn [is_dict negb]. frame_cases.
Qed.

Lemma send_message_run (S : Type) (world : transport)
    (message : string) (s : S) :
  send_message cfg world message s =
  (inr tt, s,
   [ BotSend (TELEGRAM_CHAT_ID cfg) message;
     match world (TELEGRAM_CHAT_ID cfg) message with
     | None => Log DEBUG ("Сообщение отправлено в Telegram: '" ++ message ++ "' ")
     | Some error =>
         Log ERROR ("Cбой при отправке сообщения в Telegram: '" ++ str_exn error ++ "'")
     end ]).
Proof.
  unfold send_message, bot_send_message. unfold_monad.
  destruct (world (TELEGRAM_CHAT_ID cfg) message); reflexivity.
Qed.

Lemma get_api_answer_framed (world : network) (from_date : pyval) :
  framed (fun S => @get_api_answer S cfg world from_date).
Proof.
  intros S s. unfold get_api_answer, requests_get, response_json, new_JSONDecodeError.
  unfold_monad.
  destruct (world from_date) as [error | response].
  - destruct error; reflexivity.
  - destruct (status_code response =? 200)%Z; cbn [negb]; [| reflexivity].
    destruct (json response) as [error | value]; [destruct error |]; reflexivity.
Qed.

Lemma in_verdicts_framed (v : pyval) : framed (fun S => @in_verdicts S v).
Proof.
  intros S s. destruct v; reflexivity.
Qed.

Lemma verdicts_getitem_framed (v : pyval) : framed (fun S => @verdicts_getitem S v).
Proof.
  intros S s. destruct v; try reflexivity.
  unfold verdicts_getitem. destruct (verdict_lookup HOMEWORK_VERDICTS s0); reflexivity.
Qed.

Lemma framed_ret {A : Type} (a : A) : framed (fun S => @ret S A a).
Proof. intros S s. reflexivity. Qed.

Lemma framed_raise {A : Type} (e : exn) : framed (fun S => @raise S A e).
Proof. intros S s. reflexivity. Qed.

Lemma framed_logging (lvl : level) (msg : string) :
  framed (fun S => @logging S lvl msg).
Proof. intros S s. reflexivity. Qed.

Lemma framed_bind {A B : Type} (m : forall S : Type, M S A)
    (k : A -> forall S : Type, M S B) :
  framed m -> (forall a, framed (k a)) ->
  framed (fun S => bind (m S) (fun a => k a S)).
Proof.
  intros Hm Hk S s.
  unfold result_of, trace_of, bind.
  pose proof (Hm S s) as HS. unfold result_of, trace_of in HS.
  destruct (m unit tt) as [[r u] t]. cbn [fst snd] in HS. rewrite HS.
  destruct r as [e | a]; [reflexivity |].
  destruct u.
  pose proof (Hk a S s) as HkS. unfold result_of, trace_of in HkS.
  destruct (k a unit tt) as [[r' u'] t']. cbn [fst snd] in HkS. rewrite HkS.
  reflexivity.
Qed.

Lemma parse_status_framed (homework : pyval) :
  framed (fun S => @parse_status S homework).
Proof.
  unfold parse_status.
  apply (framed_bind (fun S => logging INFO (str homework))); [apply framed_logging |].
  intros _.
  apply (framed_bind (fun S => contains "homework_name" homework));
    [apply contains_framed |].
  intros has_name. destruct has_name; cbn [negb]; [| apply framed_raise].
  apply (framed_bind (fun S => dot_get homework "status")); [apply dot_get_framed |].
  intros status.
  apply (framed_bind (fun S => in_verdicts status)); [apply in_verdicts_framed |].
  intros known. destruct known; cbn [negb].
  - apply (framed_bind (fun S => dot_get homework "homework_name"));
      [apply dot_get_framed |].
    intros homework_name.
    apply (framed_bind (fun S => dot_get homework "lesson_name"));
      [apply dot_get_framed |].
    intros lesson_name.
    apply (framed_bind (fun S => dot_get homework "status")); [apply dot_get_framed |].
    intros status'.
    apply (framed_bind (fun S => verdicts_getitem status'));
      [apply verdicts_getitem_framed |].
    intros verdict. apply framed_ret.
  - apply (framed_bind (fun S => getitem homework "status")); [apply getitem_framed |].
    intros shown. apply framed_raise.
Qed.

(** ** One iteration of the loop *)

Lemma bot_sends_app (t1 t2 : trace) :
  bot_sends (t1 ++ t2)%list = (bot_sends t1 ++ bot_sends t2)%list.
Proof. apply flat_map_app. Qed.

Lemma get_api_answer_quiet (world : network) (from_date : pyval) :
  bot_sends (trace_of (get_api_answer cfg world from_date) tt) = [].
Proof.
  unfold get_api_answer, requests_get, response_json, new_JSONDecodeError.
  unfold_monad.
  destruct (world from_date) as [error | response].
  - destruct error; reflexivity.
  - destruct (status_code response =? 200)%Z; cbn [negb]; [| reflexivity].
    destruct (json response) as [error | value]; [destruct error |]; reflexivity.
Qed.

Lemma getitem_silent (v : pyval) (key : string) :
  trace_of (getitem v key) tt = [].
Proof.
  unfold getitem. frame_cases.
Qed.

Lemma getitem0_silent (v : pyval) : trace_of (getitem0 v) tt = [].
Proof.
  unfold getitem0. frame_cases.
Qed.

Lemma check_response_silent (response : pyval) :
  trace_of (check_response response) tt = [].
Proof.
  destruct response; try reflexivity.
  unfold check_response, contains, getitem, dot_get, dict_has.
  cbn [is_dict negb]. frame_cases.
Qed.

Lemma parse_status_quiet (homework : pyval) :
  bot_sends (trace_of (parse_status homework) tt) = [].
Proof.
  unfold parse_status, contains, dot_get, in_verdicts, verdicts_getitem, getitem.
  destruct homework as [| b | n | x | text | items | entries]; try reflexivity.
  - unfold_monad.
    destruct (str_contains "homework_name" text); reflexivity.
  - unfold_monad.
    destruct (existsb _ items); reflexivity.
  - unfold dict_has. frame_cases.
Qed.

Lemma summary_bind_quiet {S A B : Type} (m : forall S : Type, M S A)
    (k : A -> M S B) (s : S) :
  framed m ->
  bot_sends (trace_of (m unit) tt) = [] ->
  summary (bind (m S) k) s =
  match result_of (m unit) tt with
  | inl e => (inl e, s, [])
  | inr a => summary (k a) s
  end.
Proof.
  intros Hm Hq. unfold summary, result_of, state_of, trace_of, bind in *.
  rewrite (Hm S s). unfold result_of, trace_of.
  destruct (m unit tt) as [[[e | a] u] t]; cbn [fst snd] in *.
  - rewrite Hq. reflexivity.
  - destruct (k a s) as [[r s2] t2]. cbn [fst snd].
    rewrite bot_sends_app, Hq. reflexivity.
Qed.

Lemma summary_bind_read {S A B : Type} (field : S -> A) (k : A -> M S B) (s : S) :
  summary (bind (read field) k) s = summary (k (field s)) s.
Proof.
  unfold summary, result_of, state_of, trace_of, bind, read.
  destruct (k (field s) s) as [[r s2] t2]. reflexivity.
Qed.

Lemma summary_bind_logging {S B : Type} (lvl : level) (msg : string)
    (k : unit -> M S B) (s : S) :
  summary (bind (logging lvl msg) k) s = summary (k tt) s.
Proof.
  unfold summary, result_of, state_of, trace_of, bind, logging, emit.
  destruct (k tt s) as [[r s2] t2]. reflexivity.
Qed.

Lemma summary_bind_assign {S B : Type} (update : S -> S) (k : unit -> M S B) (s : S) :
  summary (bind (assign update) k) s = summary (k tt) (update s).
Proof.
  unfold summary, result_of, state_of, trace_of, bind, assign.
  destruct (k tt (update s)) as [[r s2] t2]. reflexivity.
Qed.

Lemma summary_send_then_assign {S : Type} (world : transport) (message : string)
    (update : S -> S) (s : S) :
  summary (bind (send_message cfg world message) (fun _ => assign update)) s =
  (inr tt, update s, [message]).
Proof.
  unfold summary, result_of, state_of, trace_of, bind.
  rewrite send_message_run. unfold assign. cbn [fst snd].
  destruct (world (TELEGRAM_CHAT_ID cfg) message); reflexivity.
Qed.

Lemma main_try_spec (env : cycle_env) (vars : locals) :
  summary (main_try cfg env) vars =
  match classify env (timestamp vars) with
  | Failed None error => (inl error, vars, [])
  | Failed (Some d) error => (inl error, set_timestamp d vars, [])
  | Silent d => (inr tt, set_timestamp d vars, [])
  | Interpreted d message =>
      if message =? previous_message vars then (inr tt, set_timestamp d vars, [])
      else (inr tt, set_previous_message message (set_timestamp d vars), [message])
  end.
Proof.
  unfold classify, main_try.
  rewrite summary_bind_read, summary_bind_logging.
  rewrite (summary_bind_quiet (fun S => get_api_answer cfg (net env) (timestamp vars)))
    by (apply get_api_answer_framed || apply get_api_answer_quiet).
  destruct (result_of (get_api_answer cfg (net env) (timestamp vars)) tt)
    as [error | response]; [reflexivity |].
  rewrite (summary_bind_quiet (fun S => getitem response "current_date"))
    by first [apply getitem_framed | rewrite getitem_silent; reflexivity].
  destruct (result_of (getitem response "current_date") tt)
    as [error | current_date]; [reflexivity |].
  rewrite summary_bind_assign, summary_bind_read, summary_bind_logging.
  rewrite (summary_bind_quiet (fun S => check_response response))
    by first [apply check_response_framed | rewrite check_response_silent; reflexivity].
  destruct (result_of (check_response response) tt) as [error | homeworks];
    [reflexivity |].
  destruct (truthy homeworks); [| reflexivity].
  rewrite (summary_bind_quiet (fun S => getitem0 homeworks))
    by first [apply getitem0_framed | rewrite getitem0_silent; reflexivity].
  destruct (result_of (getitem0 homeworks) tt) as [error | homework]; [reflexivity |].
  rewrite (summary_bind_quiet (fun S => parse_status homework))
    by (apply parse_status_framed || apply parse_status_quiet).
  destruct (result_of (parse_status homework) tt) as [error | message];
    [reflexivity |].
  rewrite summary_bind_read.
  change (previous_message (set_timestamp current_date vars))
    with (previous_message vars).
  destruct (message =? previous_message vars); cbn [negb]; [reflexivity |].
  apply summary_send_then_assign.
Qed.

Lemma summary_try_except {S A : Type} (body : M S A) (handler : exn -> M S A) (s : S) :
  summary (try_except body handler) s =
  match summary body s with
  | (inl e, s1, b1) =>
      let '(r, s2, b2) := summary (handler e) s1 in (r, s2, (b1 ++ b2)%list)
  | (inr a, s1, b1) => (inr a, s1, b1)
  end.
Proof.
  unfold summary, result_of, state_of, trace_of, try_except.
  destruct (body s) as [[[e | a] s1] t1]; cbn [fst snd]; [| reflexivity].
  destruct (handler e s1) as [[r s2] t2]. cbn [fst snd].
  rewrite bot_sends_app. reflexivity.
Qed.

Lemma summary_then_sleep {S A : Type} (m : M S A) (seconds : Z) (s : S) :
  summary (bind m (fun _ => time_sleep seconds)) s =
  match summary m s with
  | (inl e, s1, b) => (inl e, s1, b)
  | (inr _, s1, b) => (inr tt, s1, b)
  end.
Proof.
  unfold summary, result_of, state_of, trace_of, bind, time_sleep, emit.
  destruct (m s) as [[[e | a] s1] t1]; cbn [fst snd]; [reflexivity |].
  rewrite bot_sends_app. cbn. rewrite app_nil_r. reflexivity.
Qed.

Lemma main_except_spec (env : cycle_env) (error : exn) (vars : locals) :
  summary (main_except cfg env error) vars =
  if previous_error_message vars =? failure_text error then (inr tt, vars, [])
  else (inr tt, set_previous_error_message (failure_text error) vars,
        [failure_text error]).
Proof.
  unfold main_except.
  rewrite summary_bind_logging, summary_bind_read.
  destruct (previous_error_message vars =? failure_text error); cbn [negb];
    [reflexivity |].
  apply summary_send_then_assign.
Qed.

Lemma main_cycle_spec (env : cycle_env) (vars : locals) :
  summary (main_cycle cfg env) vars =
  match classify env (timestamp vars) with
  | Failed current_date error =>
      if previous_error_message vars =? failure_text error then
        (inr tt, after_failure current_date vars, [])
      else
        (inr tt,
         set_previous_error_message (failure_text error)
           (after_failure current_date vars),
         [failure_text error])
  | Silent d => (inr tt, set_timestamp d vars, [])
  | Interpreted d message =>
      if message =? previous_message vars then (inr tt, set_timestamp d vars, [])
      else (inr tt, set_previous_message message (set_timestamp d vars), [message])
  end.
Proof.
  unfold main_cycle.
  rewrite summary_then_sleep, summary_try_except, main_try_spec.
  destruct (classify env (timestamp vars)) as [[d |] error | d | d message].
  - rewrite main_except_spec. cbn [after_failure].
    change (previous_error_message (set_timestamp d vars))
      with (previous_error_message vars).
    destruct (previous_error_message vars =? failure_text error); reflexivity.
  - rewrite main_except_spec. cbn [after_failure].
    destruct (previous_error_message vars =? failure_text error); reflexivity.
  - reflexivity.
  - destruct (message =? previous_message vars); reflexivity.
Qed.

Lemma summary_inv {S A : Type} (m : M S A) (s : S) r s' b :
  summary m s = (r, s', b) ->
  result_of m s = r /\ state_of m s = s' /\ bot_sends (trace_of m s) = b.
Proof.
  unfold summary. intros H. injection H as -> -> ->. repeat split.
Qed.

Lemma main_try_result (env : cycle_env) (vars : locals) :
  result_of (main_try cfg env) vars =
  match classify env (timestamp vars) with
  | Failed _ error => inl error
  | _ => inr tt
  end.
Proof.
  pose proof (main_try_spec env vars) as H.
  destruct (classify env (timestamp vars)) as [[d |] error | d | d message];
    try destruct (message =? previous_message vars);
    apply summary_inv in H; apply H.
Qed.

Lemma main_cycle_result (env : cycle_env) (vars : locals) :
  result_of (main_cycle cfg env) vars = inr tt.
Proof.
  pose proof (main_cycle_spec env vars) as H.
  destruct (classify env (timestamp vars)) as [cd error | d | d message];
    try destruct (previous_error_message vars =? failure_text error);
    try destruct (message =? previous_message vars);
    apply summary_inv in H; apply H.
Qed.

Lemma main_cycle_timestamp (env : cycle_env) (vars : locals) :
  timestamp (state_of (main_cycle cfg env) vars) =
  match classify env (timestamp vars) with
  | Failed (Some d) _ | Silent d | Interpreted d _ => d
  | Failed None _ => timestamp vars
  end.
Proof.
  pose proof (main_cycle_spec env vars) as H.
  destruct (classify env (timestamp vars)) as [[d |] error | d | d message];
    try destruct (previous_error_message vars =? failure_text error);
    try destruct (message =? previous_message vars);
    apply summary_inv in H; destruct H as (_ & -> & _); reflexivity.
Qed.

Lemma main_cycle_previous_error_message (env : cycle_env) (vars : locals) :
  previous_error_message (state_of (main_cycle cfg env) vars) =
  match classify env (timestamp vars) with
  | Failed _ error => failure_text error
  | _ => previous_error_message vars
  end.
Proof.
  pose proof (main_cycle_spec env vars) as H.
  destruct (classify env (timestamp vars)) as [[d |] error | d | d message];
    try destruct (previous_error_message vars =? failure_text error) eqn:E;
    try destruct (message =? previous_message vars);
    apply summary_inv in H; destruct H as (_ & -> & _);
    try reflexivity; apply String.eqb_eq in E; exact E.
Qed.

Lemma main_cycle_previous_message (env : cycle_env) (vars : locals) :
  previous_message (state_of (main_cycle cfg env) vars) =
  match classify env (timestamp vars) with
  | Interpreted _ message => message
  | _ => previous_message vars
  end.
Proof.
  pose proof (main_cycle_spec env vars) as H.
  destruct (classify env (timestamp vars)) as [[d |] error | d | d message];
    try destruct (previous_error_message vars =? failure_text error);
    try destruct (message =? previous_message vars) eqn:E;
    apply summary_inv in H; destruct H as (_ & -> & _);
    try reflexivity; apply String.eqb_eq in E; symmetry; exact E.
Qed.

Lemma main_cycle_sends (env : cycle_env) (vars : locals) :
  bot_sends (trace_of (main_cycle cfg env) vars) =
  match classify env (timestamp vars) with
  | Failed _ error =>
      if previous_error_message vars =? failure_text error then []
      else [failure_text error]
  | Silent _ => []
  | Interpreted _ message =>
      if message =? previous_message vars then [] else [message]
  end.
Proof.
  pose proof (main_cycle_spec env vars) as H.
  destruct (classify env (timestamp vars)) as [cd error | d | d message];
    try destruct (previous_error_message vars =? failure_text error);
    try destruct (message =? previous_message vars);
    apply summary_inv in H; apply H.
Qed.

(** *** Runs of the loop *)

Lemma main_loop_result (cycles : list cycle_env) (vars : locals) :
  result_of (main_loop cfg cycles) vars = inr tt.
Proof.
  revert vars. induction cycles as [| env rest IH]; intros vars; [reflexivity |].
  cbn [main_loop]. unfold result_of, bind.
  pose proof (main_cycle_result env vars) as Hc. unfold result_of in Hc.
  destruct (main_cycle cfg env vars) as [[r s1] t1]. cbn [fst] in Hc. subst r.
  specialize (IH s1). unfold result_of in IH.
  destruct (main_loop cfg rest s1) as [[r s2] t2]. exact IH.
Qed.

Lemma main_loop_cons_state (env : cycle_env) (rest : list cycle_env) (vars : locals) :
  state_of (main_loop cfg (env :: rest)) vars =
  state_of (main_loop cfg rest) (state_of (main_cycle cfg env) vars).
Proof.
  cbn [main_loop]. unfold state_of, bind.
  pose proof (main_cycle_result env vars) as Hc. unfold result_of in Hc.
  destruct (main_cycle cfg env vars) as [[r s1] t1]. cbn [fst snd] in *. subst r.
  destruct (main_loop cfg rest s1) as [[r s2] t2]. reflexivity.
Qed.

Lemma main_loop_cons_sends (env : cycle_env) (rest : list cycle_env) (vars : locals) :
  bot_sends (trace_of (main_loop cfg (env :: rest)) vars) =
  (bot_sends (trace_of (main_cycle cfg env) vars)
   ++ bot_sends (trace_of (main_loop cfg rest)
                   (state_of (main_cycle cfg env) vars)))%list.
Proof.
  cbn [main_loop]. unfold state_of, trace_of, bind.
  pose proof (main_cycle_result env vars) as Hc. unfold result_of in Hc.
  destruct (main_cycle cfg env vars) as [[r s1] t1]. cbn [fst snd] in *. subst r.
  destruct (main_loop cfg rest s1) as [[r s2] t2]. cbn [snd].
  apply bot_sends_app.
Qed.

Lemma main_loop_app_state (before after : list cycle_env) (vars : locals) :
  state_of (main_loop cfg (before ++ after)) vars =
  state_of (main_loop cfg after) (state_of (main_loop cfg before) vars).
Proof.
  revert vars. induction before as [| env rest IH]; intros vars; [reflexivity |].
  rewrite <- app_comm_cons, !main_loop_cons_state. apply IH.
Qed.

(** ** The claims on one iteration *)

Lemma interprets_to_classify (env : cycle_env) (vars : locals) (message : string) :
  interprets_to env vars message ->
  exists d, classify env (timestamp vars) = Interpreted d message.
Proof.
  intros (response & d & homeworks & homework & Hf & Hd & Hc & Ht & H0 & Hp).
  exists d. unfold classify. unfold fetched in Hf.
  rewrite Hf, Hd, Hc, Ht, H0, Hp. reflexivity.
Qed.

Lemma fails_with_classify (env : cycle_env) (vars : locals) (text : string) :
  fails_with env vars text ->
  exists cd error,
    classify env (timestamp vars) = Failed cd error
    /\ failure_text error = text.
Proof.
  intros (error & Hr & Ht). rewrite main_try_result in Hr.
  destruct (classify env (timestamp vars)) as [cd error' | d | d message];
    try discriminate.
  injection Hr as ->. exists cd, error. split; [reflexivity | exact Ht].
Qed.

(** C1 (amended): when the [try] block of an iteration raises, the
    iteration still returns normally: the failure is caught.  The cursor
    keeps its value when [get_api_answer] raised or when reading
    'current_date' from the response raised; when the failure comes later,
    from [check_response] or [parse_status], the cursor already holds the
    'current_date' of the response. *)
Theorem failure_is_caught_and_cursor_follows_fetch
    (env : cycle_env) (vars : locals) (error : exn) :
  result_of (main_try cfg env) vars = inl error ->
  result_of (main_cycle cfg env) vars = inr tt
  /\ timestamp (state_of (main_cycle cfg env) vars) =
     match fetched env vars with
     | inl _ => timestamp vars
     | inr response =>
         match result_of (getitem response "current_date") tt with
         | inl _ => timestamp vars
         | inr current_date => current_date
         end
     end.
Proof.
  intros Hr. split; [apply main_cycle_result |].
  rewrite main_cycle_timestamp. rewrite main_try_result in Hr.
  unfold classify, fetched in *.
  destruct (result_of (get_api_answer cfg (net env) (timestamp vars)) tt)
    as [e | response]; [reflexivity |].
  destruct (result_of (getitem response "current_date") tt) as [e | d];
    [reflexivity |].
  destruct (result_of (check_response response) tt) as [e | homeworks];
    [reflexivity |].
  destruct (truthy homeworks); [| discriminate].
  destruct (result_of (getitem0 homeworks) tt) as [e | homework]; [reflexivity |].
  destruct (result_of (parse_status homework) tt) as [e | message];
    [reflexivity | discriminate].
Qed.

(** C4: when the fetched response is valid and its list of homeworks is
    empty, the iteration hands nothing to the bot and the cursor becomes the
    'current_date' of the response. *)
Theorem empty_homeworks_silent_and_cursor_advances
    (env : cycle_env) (vars : locals) (entries : list (string * pyval))
    (current_date : pyval) :
  fetched env vars = inr (PDict entries) ->
  dict_get entries "homeworks" = Some (PList []) ->
  dict_get entries "current_date" = Some current_date ->
  bot_sends (trace_of (main_cycle cfg env) vars) = []
  /\ timestamp (state_of (main_cycle cfg env) vars) = current_date.
Proof.
  intros Hf Hhw Hcd.
  assert (Hc : classify env (timestamp vars) = Silent current_date).
  { unfold classify. unfold fetched in Hf. rewrite Hf.
    unfold getitem at 1. rewrite Hcd. cbn [result_of ret fst].
    rewrite (check_response_accepts unit tt entries [] Hhw)
      by (unfold dict_has; rewrite Hcd; reflexivity).
    reflexivity. }
  rewrite main_cycle_sends, main_cycle_timestamp, Hc. split; reflexivity.
Qed.

(** ** The claims on runs of the loop *)

Lemma failure_of_classify (env : cycle_env) (vars : locals) :
  failure_of env vars =
  match classify env (timestamp vars) with
  | Failed _ error => Some (failure_text error)
  | _ => None
  end.
Proof.
  unfold failure_of. rewrite main_try_result.
  destruct (classify env (timestamp vars)); reflexivity.
Qed.

Lemma error_sends_notify_on_change (cycles : list cycle_env) (vars : locals) :
  error_sends cycles vars =
  notify_on_change (previous_error_message vars) (failure_texts cycles vars).
Proof.
  revert vars. induction cycles as [| env rest IH]; intros vars; [reflexivity |].
  cbn [error_sends failure_texts]. rewrite IH.
  rewrite main_cycle_previous_error_message, main_cycle_sends, failure_of_classify.
  destruct (classify env (timestamp vars)) as [cd error | d | d message];
    try reflexivity.
  cbn [app notify_on_change].
  destruct (previous_error_message vars =? failure_text error) eqn:E;
    [| reflexivity].
  apply String.eqb_eq in E. rewrite E. reflexivity.
Qed.

(** C2: in an iteration that fails with a text different from the stored
    one, [send_message] is called once, with that text, which is then
    stored; in one that fails with the stored text it is not called.  An
    iteration without a failure leaves the stored text as it is.  Hence over
    any run the texts sent by the failing iterations are the failure texts
    filtered by [notify_on_change], the iterations without a failure in
    between having no part in it: a text that recurs after a recovery stays
    suppressed until another failure text has come in between. *)
Theorem error_notifications_once_per_change :
  (forall env vars text,
      fails_with env vars text ->
      bot_sends (trace_of (main_cycle cfg env) vars) =
        (if previous_error_message vars =? text then [] else [text])
      /\ previous_error_message (state_of (main_cycle cfg env) vars) = text)
  /\ (forall env vars,
        failure_of env vars = None ->
        previous_error_message (state_of (main_cycle cfg env) vars) =
        previous_error_message vars)
  /\ (forall cycles vars,
        error_sends cycles vars =
        notify_on_change (previous_error_message vars) (failure_texts cycles vars)).
Proof.
  split; [| split].
  - intros env vars text Hf.
    destruct (fails_with_classify env vars text Hf) as (cd & error & Hc & <-).
    rewrite main_cycle_sends, main_cycle_previous_error_message, Hc.
    split; reflexivity.
  - intros env vars Hn. rewrite failure_of_classify in Hn.
    rewrite main_cycle_previous_error_message.
    destruct (classify env (timestamp vars)); [discriminate | reflexivity ..].
  - apply error_sends_notify_on_change.
Qed.

Lemma streak_interpreted_quiet (message : string) (cycles : list cycle_env)
    (vars : locals) :
  streak (fun env vars => interprets_to env vars message) cycles vars ->
  previous_message vars = message ->
  bot_sends (trace_of (main_loop cfg cycles) vars) = [].
Proof.
  revert vars. induction cycles as [| env rest IH]; intros vars Hs Hp;
    [reflexivity |].
  destruct Hs as [Hi Hs].
  destruct (interprets_to_classify env vars message Hi) as [d Hc].
  rewrite main_loop_cons_sends, main_cycle_sends, Hc, Hp, String.eqb_refl.
  apply IH; [exact Hs |].
  rewrite main_cycle_previous_message, Hc. reflexivity.
Qed.

(** C3: over a run of iterations that all succeed and whose first homework
    reads as the same [message], [send_message] is called at most once, and
    only with [message]: once when the run starts with another stored
    message, never when it starts with [message] stored. *)
Theorem identical_message_sent_at_most_once
    (message : string) (cycles : list cycle_env) (vars : locals) :
  streak (fun env vars => interprets_to env vars message) cycles vars ->
  bot_sends (trace_of (main_loop cfg cycles) vars) =
    match cycles with
    | [] => []
    | _ :: _ => if message =? previous_message vars then [] else [message]
    end
  /\ (List.length (bot_sends (trace_of (main_loop cfg cycles) vars)) <= 1)%nat.
Proof.
  intros Hs.
  assert (He : bot_sends (trace_of (main_loop cfg cycles) vars) =
               match cycles with
               | [] => []
               | _ :: _ => if message =? previous_message vars then [] else [message]
               end).
  { destruct cycles as [| env rest]; [reflexivity |].
    destruct Hs as [Hi Hs].
    destruct (interprets_to_classify env vars message Hi) as [d Hc].
    rewrite main_loop_cons_sends, main_cycle_sends, Hc.
    rewrite (streak_interpreted_quiet message rest _ Hs)
      by (rewrite main_cycle_previous_message, Hc; reflexivity).
    apply app_nil_r. }
  split; [exact He |].
  rewrite He. destruct cycles; [cbn; lia |].
  destruct (message =? previous_message vars); cbn; lia.
Qed.

Lemma streak_failing_quiet (text : string) (cycles : list cycle_env) (vars : locals) :
  streak (fun env vars => fails_with env vars text) cycles vars ->
  previous_error_message vars = text ->
  bot_sends (trace_of (main_loop cfg cycles) vars) = [].
Proof.
  revert vars. induction cycles as [| env rest IH]; intros vars Hs Hp;
    [reflexivity |].
  destruct Hs as [Hf Hs].
  destruct (fails_with_classify env vars text Hf) as (cd & error & Hc & He).
  rewrite main_loop_cons_sends, main_cycle_sends, Hc, Hp, He, String.eqb_refl.
  apply IH; [exact Hs |].
  rewrite main_cycle_previous_error_message, Hc. exact He.
Qed.

Lemma eqb_neq_false (a b : string) : a <> b -> (a =? b) = false.
Proof. intros H. apply String.eqb_neq. exact H. Qed.

(** C9: when an iteration has a new text to send, a message or a failure
    text different from the stored one, and the transport raises on it,
    [send_message] swallows the exception, the text is stored all the same,
    and no later iteration that yields the same text hands it to the bot
    again. *)
Theorem memory_overwritten_when_delivery_fails :
  (forall env vars message error later,
      interprets_to env vars message ->
      message <> previous_message vars ->
      bot env (TELEGRAM_CHAT_ID cfg) message = Some error ->
      (forall s : locals,
          send_message cfg (bot env) message s =
          (inr tt, s,
           [ BotSend (TELEGRAM_CHAT_ID cfg) message;
             Log ERROR ("Cбой при отправке сообщения в Telegram: '"
                        ++ str_exn error ++ "'") ]))
      /\ bot_sends (trace_of (main_cycle cfg env) vars) = [message]
      /\ previous_message (state_of (main_cycle cfg env) vars) = message
      /\ (streak (fun env vars => interprets_to env vars message) later
            (state_of (main_cycle cfg env) vars) ->
          bot_sends (trace_of (main_loop cfg later)
                       (state_of (main_cycle cfg env) vars)) = []))
  /\ (forall env vars text error later,
        fails_with env vars text ->
        text <> previous_error_message vars ->
        bot env (TELEGRAM_CHAT_ID cfg) text = Some error ->
        (forall s : locals,
            send_message cfg (bot env) text s =
            (inr tt, s,
             [ BotSend (TELEGRAM_CHAT_ID cfg) text;
               Log ERROR ("Cбой при отправке сообщения в Telegram: '"
                          ++ str_exn error ++ "'") ]))
        /\ bot_sends (trace_of (main_cycle cfg env) vars) = [text]
        /\ previous_error_message (state_of (main_cycle cfg env) vars) = text
        /\ (streak (fun env vars => fails_with env vars text) later
              (state_of (main_cycle cfg env) vars) ->
            bot_sends (trace_of (main_loop cfg later)
                         (state_of (main_cycle cfg env) vars)) = [])).
Proof.
  split.
  - intros env vars message error later Hi Hne Hbot.
    destruct (interprets_to_classify env vars message Hi) as [d Hc].
    assert (Hp : previous_message (state_of (main_cycle cfg env) vars) = message)
      by (rewrite main_cycle_previous_message, Hc; reflexivity).
    repeat split.
    + intros s. rewrite send_message_run, Hbot. reflexivity.
    + rewrite main_cycle_sends, Hc, (eqb_neq_false _ _ Hne). reflexivity.
    + exact Hp.
    + intros Hs. apply (streak_interpreted_quiet message later _ Hs Hp).
  - intros env vars text error later Hf Hne Hbot.
    destruct (fails_with_classify env vars text Hf) as (cd & e & Hc & He).
    assert (Hp : previous_error_message (state_of (main_cycle cfg env) vars) = text)
      by (rewrite main_cycle_previous_error_message, Hc; exact He).
    repeat split.
    + intros s. rewrite send_message_run, Hbot. reflexivity.
    + rewrite main_cycle_sends, Hc, He.
      rewrite (eqb_neq_false (previous_error_message vars) text)
        by (intros E; apply Hne; symmetry; exact E).
      reflexivity.
    + exact Hp.
    + intros Hs. apply (streak_failing_quiet text later _ Hs Hp).
Qed.

(** *** The cursor *)

Lemma main_cycle_cursor (env : cycle_env) (vars : locals) :
  timestamp (state_of (main_cycle cfg env) vars) =
  match fetched env vars with
  | inl _ => timestamp vars
  | inr response =>
      match result_of (getitem response "current_date") tt with
      | inl _ => timestamp vars
      | inr current_date => current_date
      end
  end.
Proof.
  rewrite main_cycle_timestamp. unfold classify, fetched.
  destruct (result_of (get_api_answer cfg (net env) (timestamp vars)) tt)
    as [e | response]; [reflexivity |].
  destruct (result_of (getitem response "current_date") tt) as [e | d];
    [reflexivity |].
  destruct (result_of (check_response response) tt) as [e | homeworks];
    [reflexivity |].
  destruct (truthy homeworks); [| reflexivity].
  destruct (result_of (getitem0 homeworks) tt) as [e | homework]; [reflexivity |].
  destruct (result_of (parse_status homework) tt); reflexivity.
Qed.

Lemma main_cycle_keeps_time (env : cycle_env) (vars : locals) (z : Z) :
  answers_no_earlier env vars ->
  timestamp vars = PInt z ->
  exists z', timestamp (state_of (main_cycle cfg env) vars) = PInt z'
             /\ (z <= z')%Z.
Proof.
  intros Hk Hz. rewrite main_cycle_cursor.
  destruct (fetched env vars) as [e | response] eqn:Hf;
    [exists z; split; [exact Hz | lia] |].
  destruct (result_of (getitem response "current_date") tt) as [e | d] eqn:Hd;
    [exists z; split; [exact Hz | lia] |].
  destruct (Hk response d Hf Hd) as (z' & -> & Hle).
  exists z'. split; [reflexivity | exact (Hle z Hz)].
Qed.

Lemma main_loop_keeps_time (cycles : list cycle_env) (vars : locals) (z : Z) :
  streak answers_no_earlier cycles vars ->
  timestamp vars = PInt z ->
  exists z', timestamp (state_of (main_loop cfg cycles) vars) = PInt z'
             /\ (z <= z')%Z.
Proof.
  revert vars z. induction cycles as [| env rest IH]; intros vars z Hall Hz.
  - exists z. split; [exact Hz | lia].
  - destruct Hall as [Henv Hrest].
    destruct (main_cycle_keeps_time env vars z Henv Hz) as (z1 & Hz1 & Hle1).
    destruct (IH _ z1 Hrest Hz1) as (z2 & Hz2 & Hle2).
    exists z2. rewrite main_loop_cons_state. split; [exact Hz2 | lia].
Qed.

Lemma streak_app (P : cycle_env -> locals -> Prop) (before after : list cycle_env)
    (vars : locals) :
  streak P (before ++ after) vars ->
  streak P before vars
  /\ streak P after (state_of (main_loop cfg before) vars).
Proof.
  revert vars. induction before as [| env rest IH]; intros vars H.
  - split; [exact I | exact H].
  - rewrite <- app_comm_cons in H. destruct H as [Henv Hrest].
    destruct (IH _ Hrest) as [Hb Ha].
    rewrite main_loop_cons_state. split; [split; assumption | exact Ha].
Qed.

(** C6 (amended): an iteration changes the cursor only when
    [get_api_answer] returned a response from which 'current_date' could be
    read, and then the cursor is that 'current_date', whatever it is.  The
    cursor is not rewound as long as the answer to every request that the
    run makes holds an integer 'current_date' that is not earlier than the
    [from_date] of that request: then the cursor after any part of the run
    is not earlier than the cursor at its start, and the cursor at the end
    of the run is not earlier than that. *)
Theorem cursor_follows_server_date :
  (forall env vars,
      timestamp (state_of (main_cycle cfg env) vars) =
      match fetched env vars with
      | inl _ => timestamp vars
      | inr response =>
          match result_of (getitem response "current_date") tt with
          | inl _ => timestamp vars
          | inr current_date => current_date
          end
      end)
  /\ (forall before after vars z,
        timestamp vars = PInt z ->
        streak answers_no_earlier (before ++ after) vars ->
        exists z1 z2,
          timestamp (state_of (main_loop cfg before) vars) = PInt z1
          /\ timestamp (state_of (main_loop cfg (before ++ after)) vars) = PInt z2
          /\ (z <= z1 <= z2)%Z).
Proof.
  split; [apply main_cycle_cursor |].
  intros before after vars z Hz Hall.
  apply streak_app in Hall. destruct Hall as [Hb Ha].
  destruct (main_loop_keeps_time before vars z Hb Hz) as (z1 & Hz1 & Hle1).
  destruct (main_loop_keeps_time after _ z1 Ha Hz1) as (z2 & Hz2 & Hle2).
  exists z1, z2. rewrite main_loop_app_state. repeat split; assumption.
Qed.

(** *** The validator's test of 'current_date' *)

Lemma getitem_lacking (response : pyval) :
  lacks_current_date response ->
  exists error,
    result_of (getitem response "current_date") tt = inl error
    /\ error <> missing_current_date.
Proof.
  intros Hl.
  destruct response as [| b | n | x | text | items | entries];
    try (eexists; split; [reflexivity | discriminate]).
  cbn [lacks_current_date] in Hl. unfold dict_has in Hl.
  unfold getitem.
  destruct (dict_get entries "current_date"); [discriminate |].
  eexists. split; [reflexivity | discriminate].
Qed.

Lemma check_response_past_current_date (response current_date : pyval) :
  result_of (getitem response "current_date") tt = inr current_date ->
  result_of (check_response response) tt <> inl missing_current_date.
Proof.
  intros Hd.
  destruct response as [| b | n | x | text | items | entries];
    try discriminate.
  unfold getitem in Hd.
  destruct (dict_get entries "current_date") as [d |] eqn:Hcd; [| discriminate].
  unfold result_of, check_response, contains, getitem, dot_get, dict_has.
  cbn [is_dict negb]. rewrite bind_ret.
  destruct (dict_get entries "homeworks") as [hw |]; cbn [negb];
    [| discriminate].
  rewrite bind_ret, Hcd. cbn [negb]. rewrite bind_ret.
  destruct (is_list hw); cbn [negb]; discriminate.
Qed.

(** C10: in the loop the test of 'current_date' in [check_response] never
    fires.  When the fetched response lacks 'current_date', the [try] block
    raises what reading [response["current_date"]] raises, which is not the
    validator's [KeyError], and the cursor is left as it was; when the
    response has the key, so that [check_response] is reached, it does not
    raise at that test. *)
Theorem validator_current_date_test_unreachable
    (env : cycle_env) (vars : locals) (response : pyval) :
  fetched env vars = inr response ->
  (lacks_current_date response ->
   exists error,
     result_of (getitem response "current_date") tt = inl error
     /\ result_of (main_try cfg env) vars = inl error
     /\ error <> missing_current_date
     /\ state_of (main_try cfg env) vars = vars)
  /\ (forall current_date,
        result_of (getitem response "current_date") tt = inr current_date ->
        result_of (check_response response) tt <> inl missing_current_date).
Proof.
  intros Hf. unfold fetched in Hf. split.
  - intros Hl. destruct (getitem_lacking response Hl) as (error & Hg & Hne).
    exists error.
    pose proof (main_try_spec env vars) as Hs.
    unfold classify in Hs. rewrite Hf, Hg in Hs.
    apply summary_inv in Hs. destruct Hs as (Hr & Hst & _).
    repeat split; assumption.
  - intros d Hd. exact (check_response_past_current_date response d Hd).
Qed.

(** ** Start-up and the notification sink *)

(** C8: whatever the text and whatever the transport does with it,
    [send_message] returns normally and leaves the caller's variables alone;
    it calls the transport once and logs one record, at level ERROR when the
    transport raised and at level DEBUG when it did not. *)
Theorem send_message_never_raises
    (S : Type) (world : transport) (message : string) (s : S) :
  result_of (send_message cfg world message) s = inr tt
  /\ state_of (send_message cfg world message) s = s
  /\ trace_of (send_message cfg world message) s =
     [ BotSend (TELEGRAM_CHAT_ID cfg) message;
       match world (TELEGRAM_CHAT_ID cfg) message with
       | None => Log DEBUG ("Сообщение отправлено в Telegram: '" ++ message ++ "' ")
       | Some error =>
           Log ERROR ("Cбой при отправке сообщения в Telegram: '"
                      ++ str_exn error ++ "'")
       end ].
Proof.
  unfold result_of, state_of, trace_of. rewrite send_message_run.
  repeat split.
Qed.

(** C7: when one of the three tokens is empty, [main] logs one record at
    level CRITICAL and calls [exit()]: nothing else happens, so no request
    goes to the status API and nothing is handed to the bot. *)
Theorem missing_token_halts_before_loop
    (clock : Z) (greeting : transport) (cycles : list cycle_env) :
  PRACTICUM_TOKEN cfg = EmptyString
  \/ TELEGRAM_TOKEN cfg = EmptyString
  \/ TELEGRAM_CHAT_ID cfg = EmptyString ->
  exists msg,
    main cfg clock greeting cycles = (Halted, [Log CRITICAL msg])
    /\ http_gets (snd (main cfg clock greeting cycles)) = []
    /\ bot_sends (snd (main cfg clock greeting cycles)) = [].
Proof.
  intros Hempty.
  assert (H : exists msg, main cfg clock greeting cycles = (Halted, [Log CRITICAL msg])).
  { unfold main, main_check, check_tokens, env_vars.
    destruct cfg as [practicum telegram chat]. cbn [PRACTICUM_TOKEN TELEGRAM_TOKEN TELEGRAM_CHAT_ID] in *.
    destruct practicum as [| c1 r1]; [eexists; reflexivity |].
    destruct telegram as [| c2 r2]; [eexists; reflexivity |].
    destruct chat as [| c3 r3]; [eexists; reflexivity |].
    destruct Hempty as [E | [E | E]]; discriminate. }
  destruct H as [msg H]. exists msg. rewrite H. repeat split.
Qed.

(** ** Further properties of the functions *)

(** *** check_tokens *)

Lemma nonempty_truthy (value : string) :
  value <> EmptyString -> truthy (PStr value) = true.
Proof.
  destruct value; [intros H; contradiction H; reflexivity | reflexivity].
Qed.

(** X1: [check_tokens] returns normally exactly when none of the three
    tokens is empty. *)
Theorem check_tokens_returns_iff (S : Type) (s : S) :
  result_of (check_tokens cfg) s = inr tt <-> tokens_present.
Proof.
  unfold tokens_present, result_of, check_tokens, env_vars.
  destruct cfg as [practicum telegram chat].
  cbn [PRACTICUM_TOKEN TELEGRAM_TOKEN TELEGRAM_CHAT_ID].
  destruct practicum as [| c1 r1]; [split; [discriminate | intros (H & _); contradiction H; reflexivity] |].
  destruct telegram as [| c2 r2]; [split; [discriminate | intros (_ & H & _); contradiction H; reflexivity] |].
  destruct chat as [| c3 r3]; [split; [discriminate | intros (_ & _ & H); contradiction H; reflexivity] |].
  split; [intros _; repeat split; discriminate | reflexivity].
Qed.

(** X2: [check_tokens] stops at the first empty token, in the order
    PRACTICUM_TOKEN, TELEGRAM_TOKEN, TELEGRAM_CHAT_ID, and its exception
    names that variable only, whatever the later ones hold. *)
Theorem check_tokens_reports_first_missing (S : Type) (s : S) :
  (PRACTICUM_TOKEN cfg = EmptyString ->
   result_of (check_tokens cfg) s = inl (missing_variable "PRACTICUM_TOKEN"))
  /\ (PRACTICUM_TOKEN cfg <> EmptyString ->
      TELEGRAM_TOKEN cfg = EmptyString ->
      result_of (check_tokens cfg) s = inl (missing_variable "TELEGRAM_TOKEN"))
  /\ (PRACTICUM_TOKEN cfg <> EmptyString ->
      TELEGRAM_TOKEN cfg <> EmptyString ->
      TELEGRAM_CHAT_ID cfg = EmptyString ->
      result_of (check_tokens cfg) s = inl (missing_variable "TELEGRAM_CHAT_ID")).
Proof.
  unfold result_of, check_tokens, env_vars, missing_variable.
  cbn [check_tokens_from].
  repeat split.
  - intros ->. reflexivity.
  - intros Hp ->. rewrite (nonempty_truthy _ Hp). reflexivity.
  - intros Hp Ht ->. rewrite (nonempty_truthy _ Hp), (nonempty_truthy _ Ht). reflexivity.
Qed.

(** *** check_response *)

(** X3: [check_response] returns a value exactly for a [dict] that has the
    key 'current_date' and holds a list under 'homeworks'; the value is that
    list. *)
Theorem check_response_returns_iff (S : Type) (s : S) (response value : pyval) :
  result_of (check_response response) s = inr value <->
  exists entries items,
    response = PDict entries
    /\ dict_get entries "homeworks" = Some (PList items)
    /\ dict_has entries "current_date" = true
    /\ value = PList items.
Proof.
  split.
  - destruct response as [| b | n | x | text | items | entries]; try discriminate.
    unfold result_of, check_response, contains, getitem, dot_get, dict_has.
    cbn [is_dict negb]. rewrite bind_ret.
    destruct (dict_get entries "homeworks") as [hw |] eqn:Hhw; cbn [negb];
      [| discriminate].
    rewrite bind_ret.
    destruct (dict_get entries "current_date") as [d |] eqn:Hcd; cbn [negb];
      [| discriminate].
    rewrite bind_ret.
    destruct hw as [| b | n | x | text | items | entries']; cbn [is_list negb];
      try discriminate.
    intros E. injection E as <-.
    exists entries, items.
    split; [reflexivity | split; [exact Hhw | split; [| reflexivity]]].
    unfold dict_has. rewrite Hcd. reflexivity.
  - intros (entries & items & -> & Hhw & Hcd & ->).
    apply check_response_accepts; assumption.
Qed.

(** X4: the tests of [check_response] in their order.  A value that is no
    [dict] raises the [TypeError] on the response; a [dict] without
    'homeworks' raises the [KeyError] on 'homeworks', with or without
    'current_date'; a [dict] with 'homeworks' and without 'current_date'
    raises the [KeyError] on 'current_date', whatever 'homeworks' holds; a
    [dict] with both keys whose 'homeworks' is no list raises the
    [TypeError] on 'homeworks'. *)
Theorem check_response_rejections (S : Type) (s : S) :
  (forall response,
      is_dict response = false ->
      result_of (check_response response) s =
      inl (TypeError "Ответ API не соответствует типу 'dict'."))
  /\ (forall entries,
        dict_get entries "homeworks" = None ->
        result_of (check_response (PDict entries)) s =
        inl (KeyError (PStr "Ответ API не содержит ключа 'homeworks'")))
  /\ (forall entries homeworks,
        dict_get entries "homeworks" = Some homeworks ->
        dict_get entries "current_date" = None ->
        result_of (check_response (PDict entries)) s = inl missing_current_date)
  /\ (forall entries homeworks current_date,
        dict_get entries "homeworks" = Some homeworks ->
        dict_get entries "current_date" = Some current_date ->
        is_list homeworks = false ->
        result_of (check_response (PDict entries)) s =
        inl (TypeError "Данные ключа 'homeworks' не соответствует типу 'list'.")).
Proof.
  repeat split.
  - intros response Hd. unfold result_of, check_response. rewrite Hd. reflexivity.
  - intros entries Hhw.
    unfold result_of, check_response, contains, dict_has.
    cbn [is_dict negb]. rewrite bind_ret, Hhw. reflexivity.
  - intros entries homeworks Hhw Hcd.
    unfold result_of, check_response, contains, dict_has.
    cbn [is_dict negb]. rewrite bind_ret, Hhw. cbn [negb].
    rewrite bind_ret, Hcd. reflexivity.
  - intros entries homeworks current_date Hhw Hcd Hl.
    unfold result_of, check_response, contains, getitem, dict_has.
    cbn [is_dict negb]. rewrite bind_ret, Hhw. cbn [negb].
    rewrite bind_ret, Hcd. cbn [negb]. rewrite bind_ret, Hl. reflexivity.
Qed.

(** *** get_api_answer *)

Lemma get_api_answer_run (S : Type) (world : network) (from_date : pyval) (s : S) :
  get_api_answer cfg world from_date s =
  match world from_date with
  | inl error =>
      (inl (if is_request_exception error
            then EndpointDisable ("Неуспешный запрос: '" ++ str_exn error ++ "'.")
            else error),
       s, [HttpGet ENDPOINT (HEADERS cfg) from_date])
  | inr response =>
      if (status_code response =? 200)%Z then
        (match json response with
         | inl (JSONDecodeError text) =>
             inl (TypeError
                    "JSONDecodeError.__init__() missing 2 required positional arguments: 'doc' and 'pos'")
         | inl error => inl error
         | inr value => inr value
         end,
         s,
         [HttpGet ENDPOINT (HEADERS cfg) from_date; Log INFO (text response)])
      else
        (inl (EndpointDisable
                ("Endpoint не доступен, HTTPStatus: " ++ str (PInt (status_code response)))),
         s, [HttpGet ENDPOINT (HEADERS cfg) from_date])
  end.
Proof.
  unfold get_api_answer, requests_get, response_json, new_JSONDecodeError.
  unfold_monad.
  destruct (world from_date) as [error | response].
  - destruct error; reflexivity.
  - destruct (status_code response =? 200)%Z; cbn [negb]; [| reflexivity].
    destruct (json response) as [error | value]; [destruct error |]; reflexivity.
Qed.

(** X5: [get_api_answer] returns a value exactly when the server answers
    with status 200 and a body that [response.json()] decodes; the value is
    the decoded body, as it is. *)
Theorem get_api_answer_returns_iff
    (S : Type) (s : S) (world : network) (from_date value : pyval) :
  result_of (get_api_answer cfg world from_date) s = inr value <->
  exists response,
    world from_date = inr response
    /\ status_code response = 200%Z
    /\ json response = inr value.
Proof.
  unfold result_of. rewrite get_api_answer_run. split.
  - destruct (world from_date) as [error | response];
      [destruct error; discriminate |].
    destruct (status_code response =? 200)%Z eqn:Hc; cbn [fst]; [| discriminate].
    apply Z.eqb_eq in Hc.
    destruct (json response) as [error | v] eqn:Hj; [destruct error; discriminate |].
    intros E. injection E as <-. exists response. repeat split; assumption.
  - intros (response & -> & Hc & Hj). rewrite Hc, Hj. reflexivity.
Qed.

(** X6: what [get_api_answer] raises.  An exception of [requests.get] of
    the class [RequestException], a [JSONDecodeError] among them, and a
    status other than 200 both come out as [EndpointDisable]; a
    [JSONDecodeError] of [response.json()] comes out as the [TypeError] of
    the constructor [requests.JSONDecodeError], called with the text alone;
    any other exception of the two calls comes out as it is.  With a status
    other than 200 the body is not decoded. *)
Theorem get_api_answer_failures
    (S : Type) (s : S) (world : network) (from_date : pyval) (error : exn) :
  result_of (get_api_answer cfg world from_date) s = inl error ->
  (exists raised,
      world from_date = inl raised
      /\ is_request_exception raised = true
      /\ error = EndpointDisable ("Неуспешный запрос: '" ++ str_exn raised ++ "'."))
  \/ (world from_date = inl error
      /\ is_request_exception error = false)
  \/ (exists response,
        world from_date = inr response
        /\ status_code response <> 200%Z
        /\ error = EndpointDisable
                     ("Endpoint не доступен, HTTPStatus: "
                      ++ str (PInt (status_code response))))
  \/ (exists response text,
        world from_date = inr response
        /\ status_code response = 200%Z
        /\ json response = inl (JSONDecodeError text)
        /\ error =
           TypeError
             "JSONDecodeError.__init__() missing 2 required positional arguments: 'doc' and 'pos'")
  \/ (exists response,
        world from_date = inr response
        /\ status_code response = 200%Z
        /\ json response = inl error
        /\ forall text, error <> JSONDecodeError text).
Proof.
  unfold result_of. rewrite get_api_answer_run.
  destruct (world from_date) as [e | response].
  - cbn [fst]. intros E. injection E as <-.
    destruct (is_request_exception e) eqn:He.
    + left. exists e. repeat split. exact He.
    + right. left. split; [reflexivity | exact He].
  - destruct (status_code response =? 200)%Z eqn:Hc; cbn [fst].
    + apply Z.eqb_eq in Hc.
      destruct (json response) as [e | v] eqn:Hj; [| discriminate].
      destruct e as [m | a | m | m | m | m | m | text0 | m];
        intros E; injection E as <-;
        try (right; right; right; right; exists response;
             repeat split; try assumption; intros text; discriminate).
      right. right. right. left. exists response, text0.
      split; [reflexivity | split; [exact Hc | split; [exact Hj | reflexivity]]].
    + apply Z.eqb_neq in Hc. intros E. injection E as <-.
      right. right. left. exists response. repeat split. exact Hc.
Qed.

(** X7: whatever the server does, [get_api_answer] makes exactly one
    request, to [ENDPOINT], with the token in the authorization header and
    the cursor as [from_date]; it logs the body, at level INFO, only when the
    status is 200, produces no other event, and leaves the caller's
    variables alone. *)
Theorem get_api_answer_single_request
    (S : Type) (s : S) (world : network) (from_date : pyval) :
  state_of (get_api_answer cfg world from_date) s = s
  /\ trace_of (get_api_answer cfg world from_date) s =
     HttpGet ENDPOINT ("OAuth " ++ PRACTICUM_TOKEN cfg) from_date
     :: match world from_date with
        | inr response =>
            if (status_code response =? 200)%Z then [Log INFO (text response)] else []
        | inl _ => []
        end.
Proof.
  unfold state_of, trace_of. rewrite get_api_answer_run.
  destruct (world from_date) as [e | response].
  - destruct e; split; reflexivity.
  - destruct (status_code response =? 200)%Z; split; reflexivity.
Qed.

(** *** parse_status *)

Lemma parse_status_dict (S : Type) (s : S) (entries : list (string * pyval)) :
  result_of (parse_status (PDict entries)) s =
  if dict_has entries "homework_name" then
    match dict_get entries "status" with
    | None => inl (KeyError (PStr "status"))
    | Some (PStr status) =>
        match verdict_lookup HOMEWORK_VERDICTS status with
        | Some verdict =>
            inr (status_message (dict_get_or_none entries "homework_name")
                   (dict_get_or_none entries "lesson_name") verdict)
        | None => inl (KeyError (PStr ("Неизвестный статус: '" ++ status ++ "'")))
        end
    | Some (PList items) => inl (TypeError "unhashable type: 'list'")
    | Some (PDict fields) => inl (TypeError "unhashable type: 'dict'")
    | Some status => inl (KeyError (PStr ("Неизвестный статус: '" ++ str status ++ "'")))
    end
  else inl (KeyError (PStr "Ключ 'homework_name' отсутствует в 'homework'")).
Proof.
  unfold parse_status, contains, dot_get, getitem, dict_get_or_none, status_message.
  unfold logging. unfold result_of, bind at 1, emit.
  rewrite bind_ret.
  destruct (dict_has entries "homework_name"); cbn [negb]; [| reflexivity].
  destruct (dict_get entries "status") as [status |]; rewrite bind_ret.
  - destruct status as [| b | n | x | text | items | fields];
      unfold in_verdicts; try reflexivity;
      try (rewrite bind_ret; reflexivity).
    rewrite bind_ret. unfold verdicts_getitem.
    destruct (verdict_lookup HOMEWORK_VERDICTS text) as [verdict |] eqn:Hv;
      cbn [negb].
    + destruct (dict_get entries "homework_name"), (dict_get entries "lesson_name");
        rewrite !bind_ret, ?Hv; reflexivity.
    + rewrite bind_ret. reflexivity.
  - unfold in_verdicts. rewrite bind_ret. reflexivity.
Qed.

Lemma parse_status_not_dict (S : Type) (s : S) (homework : pyval) (message : string) :
  is_dict homework = false ->
  result_of (parse_status homework) s <> inr message.
Proof.
  intros Hd.
  destruct homework as [| b | n | x | text | items | entries];
    try discriminate Hd; try discriminate.
  - unfold result_of, parse_status, contains, dot_get, logging, emit.
    unfold bind at 1. rewrite bind_ret.
    destruct (str_contains "homework_name" text); discriminate.
  - unfold result_of, parse_status, contains, dot_get, logging, emit.
    unfold bind at 1. rewrite bind_ret.
    destruct (existsb _ items); discriminate.
Qed.

Lemma parse_status_returns_spec (S : Type) (s : S) (homework : pyval) (message : string) :
  result_of (parse_status homework) s = inr message <->
  exists entries status verdict,
    homework = PDict entries
    /\ dict_has entries "homework_name" = true
    /\ dict_get entries "status" = Some (PStr status)
    /\ verdict_lookup HOMEWORK_VERDICTS status = Some verdict
    /\ message =
       status_message (dict_get_or_none entries "homework_name")
         (dict_get_or_none entries "lesson_name") verdict.
Proof.
  split.
  - destruct (is_dict homework) eqn:Hd;
      [| intros H; exfalso; exact (parse_status_not_dict S s homework message Hd H)].
    destruct homework as [| b | n | x | text | items | entries]; try discriminate Hd.
    rewrite parse_status_dict.
    destruct (dict_has entries "homework_name") eqn:Hn; [| discriminate].
    destruct (dict_get entries "status") as [status |] eqn:Hs; [| discriminate].
    destruct status as [| b | n | x | text | items | fields]; try discriminate.
    destruct (verdict_lookup HOMEWORK_VERDICTS text) as [verdict |] eqn:Hv;
      [| discriminate].
    intros E. injection E as <-.
    exists entries, text, verdict. repeat split; assumption.
  - intros (entries & status & verdict & -> & Hn & Hs & Hv & ->).
    rewrite parse_status_dict, Hn, Hs, Hv. reflexivity.
Qed.

(** X8: [parse_status] returns a message exactly for a [dict] that has the
    key 'homework_name' and whose 'status' is one of the keys of
    [HOMEWORK_VERDICTS]; the message is then the three lines built from the
    name, from the lesson ([None] when the key is absent) and from the
    verdict of that status, in this order. *)
Theorem parse_status_returns_iff (S : Type) (s : S) (homework : pyval) (message : string) :
  result_of (parse_status homework) s = inr message <->
  exists entries status verdict,
    homework = PDict entries
    /\ dict_has entries "homework_name" = true
    /\ dict_get entries "status" = Some (PStr status)
    /\ verdict_lookup HOMEWORK_VERDICTS status = Some verdict
    /\ message =
       status_message (dict_get_or_none entries "homework_name")
         (dict_get_or_none entries "lesson_name") verdict.
Proof.
  exact (parse_status_returns_spec S s homework message).
Qed.

(** X9: a homework in which 'homework_name' is not found, be it a [dict]
    without the key, a list without that element or a string without that
    substring, raises the [KeyError] on 'homework_name', whatever its
    status. *)
Theorem parse_status_missing_name (S : Type) (s : S) (homework : pyval) :
  result_of (contains "homework_name" homework) s = inr false ->
  result_of (parse_status homework) s =
  inl (KeyError (PStr "Ключ 'homework_name' отсутствует в 'homework'")).
Proof.
  unfold result_of, parse_status, logging, emit. unfold bind at 1.
  unfold bind at 1.
  destruct (contains "homework_name" homework s) as [[r s1] t1]. cbn [fst].
  intros ->. reflexivity.
Qed.

(** X10: a [dict] that has 'homework_name' and no 'status' raises the
    [KeyError] of the subscript [homework['status']], whose argument is the
    key 'status' and not the text on the unknown status. *)
Theorem parse_status_absent_status (S : Type) (s : S) (entries : list (string * pyval)) :
  dict_has entries "homework_name" = true ->
  dict_get entries "status" = None ->
  result_of (parse_status (PDict entries)) s = inl (KeyError (PStr "status")).
Proof.
  intros Hn Hs. rewrite parse_status_dict, Hn, Hs. reflexivity.
Qed.

(** X11: a [dict] that has 'homework_name' and a 'status' that is no key of
    [HOMEWORK_VERDICTS] does not parse: a status that can be hashed raises
    the [KeyError] whose text shows it, a list or a [dict] raises the
    [TypeError] of the membership test. *)
Theorem parse_status_rejects_unknown_status
    (S : Type) (s : S) (entries : list (string * pyval)) (status : pyval) :
  dict_has entries "homework_name" = true ->
  dict_get entries "status" = Some status ->
  (result_of (in_verdicts status) s = inr false ->
   result_of (parse_status (PDict entries)) s =
   inl (KeyError (PStr ("Неизвестный статус: '" ++ str status ++ "'"))))
  /\ (is_list status = true \/ is_dict status = true ->
      result_of (parse_status (PDict entries)) s =
      inl (TypeError ("unhashable type: '" ++ type_name status ++ "'"))).
Proof.
  intros Hn Hs. rewrite parse_status_dict, Hn, Hs. split.
  - destruct status as [| b | n | x | text | items | fields];
      try reflexivity; try discriminate.
    unfold result_of, in_verdicts, ret. cbn [fst].
    destruct (verdict_lookup HOMEWORK_VERDICTS text); [discriminate | reflexivity].
  - intros [H | H];
      destruct status as [| b | n | x | text | items | fields];
      try discriminate H; reflexivity.
Qed.

Lemma append_cancel_l (prefix a b : string) :
  prefix ++ a = prefix ++ b -> a = b.
Proof.
  induction prefix as [| c rest IH]; cbn [append]; intros H; [exact H |].
  injection H as H. exact (IH H).
Qed.

Lemma verdicts_distinct (status1 status2 verdict : string) :
  verdict_lookup HOMEWORK_VERDICTS status1 = Some verdict ->
  verdict_lookup HOMEWORK_VERDICTS status2 = Some verdict ->
  status1 = status2.
Proof.
  unfold HOMEWORK_VERDICTS. cbn [verdict_lookup].
  destruct ("approved" =? status1) eqn:A1;
    [apply String.eqb_eq in A1 |
     destruct ("reviewing" =? status1) eqn:B1;
       [apply String.eqb_eq in B1 |
        destruct ("rejected" =? status1) eqn:C1;
          [apply String.eqb_eq in C1 | discriminate]]];
    (destruct ("approved" =? status2) eqn:A2;
       [apply String.eqb_eq in A2 |
        destruct ("reviewing" =? status2) eqn:B2;
          [apply String.eqb_eq in B2 |
           destruct ("rejected" =? status2) eqn:C2;
             [apply String.eqb_eq in C2 | intros _ H; discriminate H]]]);
    intros H1 H2; subst; try reflexivity;
    rewrite <- H1 in H2; discriminate H2.
Qed.

(** X12: two homeworks with the same name and the same lesson and with
    different statuses, both of which parse, give different messages: a
    change of status always changes the message that the loop compares with
    the last one it sent. *)
Theorem parse_status_distinguishes_statuses
    (S : Type) (s : S) (entries1 entries2 : list (string * pyval))
    (message1 message2 : string) :
  result_of (parse_status (PDict entries1)) s = inr message1 ->
  result_of (parse_status (PDict entries2)) s = inr message2 ->
  dict_get entries1 "homework_name" = dict_get entries2 "homework_name" ->
  dict_get entries1 "lesson_name" = dict_get entries2 "lesson_name" ->
  dict_get entries1 "status" <> dict_get entries2 "status" ->
  message1 <> message2.
Proof.
  intros H1 H2 Hname Hlesson Hstatus.
  apply parse_status_returns_spec in H1, H2.
  destruct H1 as (e1 & s1 & v1 & E1 & _ & Hs1 & Hv1 & ->).
  destruct H2 as (e2 & s2 & v2 & E2 & _ & Hs2 & Hv2 & ->).
  injection E1 as <-. injection E2 as <-.
  unfold status_message, dict_get_or_none. rewrite Hname, Hlesson.
  intros E.
  repeat (apply append_cancel_l in E).
  subst v2. apply Hstatus. rewrite Hs1, Hs2.
  rewrite (verdicts_distinct s1 s2 v1 Hv1 Hv2). reflexivity.
Qed.

(** ** Further properties of the loop *)

Lemma trace_bind {S A B : Type} (m : M S A) (k : A -> M S B) (s : S) :
  trace_of (bind m k) s =
  (trace_of m s
   ++ match result_of m s with
      | inl _ => []
      | inr a => trace_of (k a) (state_of m s)
      end)%list.
Proof.
  unfold trace_of, result_of, state_of, bind.
  destruct (m s) as [[[e | a] s1] t1]; cbn [fst snd]; [symmetry; apply app_nil_r |].
  destruct (k a s1) as [[r s2] t2]. reflexivity.
Qed.

Lemma trace_try_except {S A : Type} (body : M S A) (handler : exn -> M S A) (s : S) :
  trace_of (try_except body handler) s =
  (trace_of body s
   ++ match result_of body s with
      | inl e => trace_of (handler e) (state_of body s)
      | inr _ => []
      end)%list.
Proof.
  unfold trace_of, result_of, state_of, try_except.
  destruct (body s) as [[[e | a] s1] t1]; cbn [fst snd]; [| symmetry; apply app_nil_r].
  destruct (handler e s1) as [[r s2] t2]. reflexivity.
Qed.

Lemma framed_trace {A : Type} (m : forall S : Type, M S A) (S : Type) (s : S) :
  framed m -> trace_of (m S) s = trace_of (m unit) tt.
Proof.
  intros Hm. unfold trace_of at 1. rewrite (Hm S s). reflexivity.
Qed.

Lemma parse_status_trace (homework : pyval) :
  trace_of (parse_status homework) tt = [Log INFO (str homework)].
Proof.
  unfold parse_status, contains, dot_get, in_verdicts, verdicts_getitem, getitem.
  destruct homework as [| b | n | x | text | items | entries]; try reflexivity.
  - unfold_monad.
    destruct (str_contains "homework_name" text); reflexivity.
  - unfold_monad.
    destruct (existsb _ items); reflexivity.
  - unfold dict_has. frame_cases.
Qed.

Section EventClass.

Context {X : Type} (f : event -> list X).
Hypothesis f_log : forall lvl msg, f (Log lvl msg) = [].
Hypothesis f_bot : forall chat_id message, f (BotSend chat_id message) = [].

Lemma free_bind {S A B : Type} (m : M S A) (k : A -> M S B) :
  free_of f m -> (forall a, free_of f (k a)) -> free_of f (bind m k).
Proof.
  intros Hm Hk s. rewrite trace_bind, flat_map_app, Hm.
  destruct (result_of m s) as [e | a]; [reflexivity | apply Hk].
Qed.

Lemma free_ret {S A : Type} (a : A) : free_of f (@ret S A a).
Proof. intros s. reflexivity. Qed.

Lemma free_read {S A : Type} (field : S -> A) : free_of f (read field).
Proof. intros s. reflexivity. Qed.

Lemma free_assign {S : Type} (update : S -> S) : free_of f (assign update).
Proof. intros s. reflexivity. Qed.

Lemma free_logging {S : Type} (lvl : level) (msg : string) :
  free_of f (@logging S lvl msg).
Proof.
  intros s. cbn. rewrite f_log. reflexivity.
Qed.

Lemma free_silent {A : Type} (m : forall S : Type, M S A) (S : Type) :
  framed m -> trace_of (m unit) tt = [] -> free_of f (m S).
Proof.
  intros Hm Ht s. rewrite (framed_trace m S s Hm), Ht. reflexivity.
Qed.

Lemma free_parse_status {S : Type} (homework : pyval) :
  free_of f (@parse_status S homework).
Proof.
  intros s.
  rewrite (framed_trace (fun S => parse_status homework) S s
             (parse_status_framed homework)).
  rewrite parse_status_trace. cbn. rewrite f_log. reflexivity.
Qed.

Lemma free_send_message {S : Type} (world : transport) (message : string) :
  free_of f (@send_message S cfg world message).
Proof.
  intros s. unfold trace_of. rewrite send_message_run. cbn [snd flat_map].
  rewrite f_bot. destruct (world (TELEGRAM_CHAT_ID cfg) message); rewrite f_log;
    reflexivity.
Qed.

Lemma free_main_except (env : cycle_env) (error : exn) :
  free_of f (main_except cfg env error).
Proof.
  unfold main_except.
  apply free_bind; [apply free_logging | intros _].
  apply free_bind; [apply free_read | intros previous].
  destruct (negb (previous =? failure_text error)); [| apply free_ret].
  apply free_bind; [apply free_send_message | intros _; apply free_assign].
Qed.

(** The events of an iteration that [f] selects are those of its one call
    of [get_api_answer] and the sleep at its end. *)
Lemma main_cycle_events (env : cycle_env) (vars : locals) :
  flat_map f (trace_of (main_cycle cfg env) vars) =
  (flat_map f (trace_of (get_api_answer cfg (net env) (timestamp vars)) tt)
   ++ f (Sleep RETRY_PERIOD))%list.
Proof.
  assert (Htry : flat_map f (trace_of (main_try cfg env) vars) =
                 flat_map f (trace_of (get_api_answer cfg (net env) (timestamp vars)) tt)).
  { unfold main_try.
    rewrite trace_bind. cbn [read trace_of result_of state_of fst snd app].
    rewrite trace_bind. cbn [logging emit trace_of result_of state_of fst snd app].
    cbn [flat_map]. rewrite f_log. cbn [app].
    rewrite trace_bind, flat_map_app.
    rewrite (framed_trace (fun S => get_api_answer cfg (net env) (timestamp vars))
               locals vars (get_api_answer_framed (net env) (timestamp vars))).
    rewrite <- (app_nil_r (flat_map f (trace_of (get_api_answer cfg (net env)
                                                  (timestamp vars)) tt))) at 2.
    f_equal.
    destruct (result_of (get_api_answer cfg (net env) (timestamp vars)) vars)
      as [e | response]; [reflexivity |].
    generalize (state_of (get_api_answer cfg (net env) (timestamp vars)) vars).
    change (free_of f
              (current_date <- getitem response "current_date" ;;
               assign (set_timestamp current_date) ;;
               next_date <- read timestamp ;;
               logging INFO ("Timestamp for next checking " ++ str next_date) ;;
               homeworks <- check_response response ;;
               if truthy homeworks then
                 homework <- getitem0 homeworks ;;
                 message <- parse_status homework ;;
                 previous <- read previous_message ;;
                 if negb (message =? previous) then
                   send_message cfg (bot env) message ;;
                   assign (set_previous_message message)
                 else ret tt
               else
                 logging DEBUG "Домашняя работа отсутствует или ее статус не изменился.")).
    apply free_bind;
      [apply (free_silent (fun S => getitem response "current_date"));
         [apply getitem_framed | apply getitem_silent] | intros current_date].
    apply free_bind; [apply free_assign | intros _].
    apply free_bind; [apply free_read | intros next_date].
    apply free_bind; [apply free_logging | intros _].
    apply free_bind;
      [apply (free_silent (fun S => check_response response));
         [apply check_response_framed | apply check_response_silent] | intros homeworks].
    destruct (truthy homeworks); [| apply free_logging].
    apply free_bind;
      [apply (free_silent (fun S => getitem0 homeworks));
         [apply getitem0_framed | apply getitem0_silent] | intros homework].
    apply free_bind; [apply free_parse_status | intros message].
    apply free_bind; [apply free_read | intros previous].
    destruct (negb (message =? previous)); [| apply free_ret].
    apply free_bind; [apply free_send_message | intros _; apply free_assign]. }
  unfold main_cycle. rewrite trace_bind, flat_map_app, trace_try_except, flat_map_app, Htry.
  assert (Hexc : flat_map f
                   match result_of (main_try cfg env) vars with
                   | inl e => trace_of (main_except cfg env e) (state_of (main_try cfg env) vars)
                   | inr _ => []
                   end = []).
  { destruct (result_of (main_try cfg env) vars) as [e | u]; [| reflexivity].
    apply free_main_except. }
  rewrite Hexc, app_nil_r. f_equal.
  pose proof (main_cycle_result env vars) as Hr.
  unfold main_cycle, result_of, bind in Hr.
  unfold result_of, state_of, time_sleep, emit, trace_of.
  destruct (try_except (main_try cfg env) (main_except cfg env) vars)
    as [[[e | u] s1] t1]; cbn [fst snd] in *; [discriminate Hr |].
  cbn. apply app_nil_r.
Qed.

Lemma main_loop_cons_events (env : cycle_env) (rest : list cycle_env) (vars : locals) :
  flat_map f (trace_of (main_loop cfg (env :: rest)) vars) =
  (flat_map f (trace_of (main_cycle cfg env) vars)
   ++ flat_map f (trace_of (main_loop cfg rest)
                    (state_of (main_cycle cfg env) vars)))%list.
Proof.
  cbn [main_loop]. rewrite trace_bind, flat_map_app, main_cycle_result. reflexivity.
Qed.

End EventClass.

Lemma get_api_answer_http_gets (world : network) (from_date : pyval) :
  http_gets (trace_of (get_api_answer cfg world from_date) tt) = [from_date].
Proof.
  unfold trace_of. rewrite get_api_answer_run.
  destruct (world from_date) as [e | response]; [destruct e; reflexivity |].
  destruct (status_code response =? 200)%Z; reflexivity.
Qed.

Lemma get_api_answer_sleeps (world : network) (from_date : pyval) :
  sleeps (trace_of (get_api_answer cfg world from_date) tt) = [].
Proof.
  unfold trace_of. rewrite get_api_answer_run.
  destruct (world from_date) as [e | response]; [destruct e; reflexivity |].
  destruct (status_code response =? 200)%Z; reflexivity.
Qed.

Lemma iteration_events (env : cycle_env) (vars : locals) :
  http_gets (trace_of (main_cycle cfg env) vars) = [timestamp vars]
  /\ sleeps (trace_of (main_cycle cfg env) vars) = [RETRY_PERIOD].
Proof.
  unfold http_gets, sleeps.
  rewrite !main_cycle_events by reflexivity.
  fold (http_gets (trace_of (get_api_answer cfg (net env) (timestamp vars)) tt)).
  fold (sleeps (trace_of (get_api_answer cfg (net env) (timestamp vars)) tt)).
  rewrite get_api_answer_http_gets, get_api_answer_sleeps. split; reflexivity.
Qed.

(** X13: every iteration of the loop, whether its [try] block returns or
    raises, makes exactly one request to the status API, with the cursor it
    starts with as [from_date], and sleeps exactly once, for [RETRY_PERIOD]
    seconds. *)
Theorem iteration_one_request_one_sleep (env : cycle_env) (vars : locals) :
  http_gets (trace_of (main_cycle cfg env) vars) = [timestamp vars]
  /\ sleeps (trace_of (main_cycle cfg env) vars) = [RETRY_PERIOD].
Proof.
  exact (iteration_events env vars).
Qed.

(** X14: over a run of the loop the requests carry, in order, the cursor at
    the start of each iteration, and there is one sleep of [RETRY_PERIOD]
    seconds per iteration. *)
Theorem run_requests_and_sleeps (cycles : list cycle_env) (vars : locals) :
  http_gets (trace_of (main_loop cfg cycles) vars) = request_dates cycles vars
  /\ sleeps (trace_of (main_loop cfg cycles) vars) =
     repeat RETRY_PERIOD (List.length cycles).
Proof.
  revert vars. induction cycles as [| env rest IH]; intros vars;
    [split; reflexivity |].
  destruct (IH (state_of (main_cycle cfg env) vars)) as [IHg IHs].
  destruct (iteration_events env vars) as [Hg Hs].
  unfold http_gets, sleeps in *.
  rewrite !main_loop_cons_events, Hg, Hs, IHg, IHs. split; reflexivity.
Qed.

(** X15: an iteration hands at most one text to the bot: never a message
    and a failure text together, and never the same text twice. *)
Theorem at_most_one_send_per_iteration (env : cycle_env) (vars : locals) :
  (List.length (bot_sends (trace_of (main_cycle cfg env) vars)) <= 1)%nat.
Proof.
  rewrite main_cycle_sends.
  destruct (classify env (timestamp vars)) as [cd error | d | d message];
    try destruct (previous_error_message vars =? failure_text error);
    try destruct (message =? previous_message vars);
    cbn; lia.
Qed.

Lemma main_check_passes : tokens_present -> main_check cfg tt = (inr false, tt, []).
Proof.
  unfold tokens_present, main_check, check_tokens, env_vars.
  intros (Hp & Ht & Hc).
  unfold try_except, bind. cbn [check_tokens_from].
  rewrite (nonempty_truthy _ Hp), (nonempty_truthy _ Ht), (nonempty_truthy _ Hc).
  reflexivity.
Qed.

(** X16: when none of the three tokens is empty, [main] goes on to build
    the bot.  If the constructor [telegram.Bot] raises on the token, that
    exception leaves [main] before anything is sent or requested.  If it
    returns, [main] reaches the loop and stays in it, whatever the server
    and the transport do: it hands the greeting to the bot once, even when
    that delivery fails, then runs the iterations from the cursor
    [int(time.time())] with both stored texts empty, and no exception leaves
    it. *)
Theorem main_starts_polling
    (clock : Z) (greeting : transport) (cycles : list cycle_env) :
  tokens_present ->
  match telegram_Bot (TELEGRAM_TOKEN cfg) with
  | Some error => main cfg clock greeting cycles = (Crashed error, [])
  | None =>
      main cfg clock greeting cycles =
      (Polling (state_of (main_loop cfg cycles) (start_vars clock)),
       (BotSend (TELEGRAM_CHAT_ID cfg) greeting_text
        :: match greeting (TELEGRAM_CHAT_ID cfg) greeting_text with
           | None =>
               Log DEBUG ("Сообщение отправлено в Telegram: '" ++ greeting_text ++ "' ")
           | Some error =>
               Log ERROR ("Cбой при отправке сообщения в Telegram: '"
                          ++ str_exn error ++ "'")
           end
        :: trace_of (main_loop cfg cycles) (start_vars clock))%list)
  end.
Proof.
  intros Hp. unfold main. rewrite (main_check_passes Hp).
  destruct (telegram_Bot (TELEGRAM_TOKEN cfg)) as [error |]; [reflexivity |].
  fold greeting_text. fold (start_vars clock). cbv zeta.
  pose proof (main_loop_result cycles (start_vars clock)) as Hr.
  unfold result_of, state_of, trace_of in *.
  rewrite send_message_run.
  destruct (main_loop cfg cycles (start_vars clock)) as [[[e | u] final] t2];
    cbn [fst snd app] in *; [discriminate Hr | reflexivity].
Qed.

Lemma message_of_interprets (env : cycle_env) (vars : locals) (message : string) :
  message_of env vars = Some message <-> interprets_to env vars message.
Proof.
  split.
  - unfold message_of, classify, interprets_to, fetched.
    destruct (result_of (get_api_answer cfg (net env) (timestamp vars)) tt)
      as [e | response]; [discriminate |].
    destruct (result_of (getitem response "current_date") tt) as [e | d] eqn:Hd;
      [discriminate |].
    destruct (result_of (check_response response) tt) as [e | homeworks] eqn:Hc;
      [discriminate |].
    destruct (truthy homeworks) eqn:Ht; [| discriminate].
    destruct (result_of (getitem0 homeworks) tt) as [e | homework] eqn:H0;
      [discriminate |].
    destruct (result_of (parse_status homework) tt) as [e | m] eqn:Hp;
      [discriminate |].
    intros E. injection E as <-.
    exists response, d, homeworks, homework. repeat split; assumption.
  - intros Hi. destruct (interprets_to_classify env vars message Hi) as [d Hc].
    unfold message_of. rewrite Hc. reflexivity.
Qed.

Lemma message_sends_notify_on_change (cycles : list cycle_env) (vars : locals) :
  message_sends cycles vars =
  notify_on_change (previous_message vars) (message_texts cycles vars).
Proof.
  revert vars. induction cycles as [| env rest IH]; intros vars; [reflexivity |].
  cbn [message_sends message_texts]. rewrite IH.
  rewrite main_cycle_previous_message, main_cycle_sends. unfold message_of.
  destruct (classify env (timestamp vars)) as [cd error | d | d message];
    try reflexivity.
  cbn [app notify_on_change]. rewrite (String.eqb_sym (previous_message vars) message).
  destruct (message =? previous_message vars) eqn:E; [| reflexivity].
  apply String.eqb_eq in E. rewrite E. reflexivity.
Qed.

(** X17: the status messages obey the same rule as the failure texts.  An
    iteration has a message exactly when every call of its [try] block
    returns and the first homework parses; the stored message changes only
    in such an iteration, to that message; and over any run the texts sent
    by these iterations are their messages filtered by [notify_on_change],
    so that failures and empty answers in between do not make a message be
    sent again. *)
Theorem message_notifications_once_per_change :
  (forall env vars message,
      message_of env vars = Some message <-> interprets_to env vars message)
  /\ (forall env vars,
        previous_message (state_of (main_cycle cfg env) vars) =
        match message_of env vars with
        | Some message => message
        | None => previous_message vars
        end)
  /\ (forall cycles vars,
        message_sends cycles vars =
        notify_on_change (previous_message vars) (message_texts cycles vars)).
Proof.
  split; [exact message_of_interprets | split].
  - intros env vars. rewrite main_cycle_previous_message. unfold message_of.
    destruct (classify env (timestamp vars)); reflexivity.
  - exact message_sends_notify_on_change.
Qed.

(** X18: a new message is sent.  When the first homework of a successful
    iteration parses to a message other than the stored one, the iteration
    hands exactly that message to the bot and stores it. *)
Theorem new_message_is_sent (env : cycle_env) (vars : locals) (message : string) :
  interprets_to env vars message ->
  message <> previous_message vars ->
  bot_sends (trace_of (main_cycle cfg env) vars) = [message]
  /\ previous_message (state_of (main_cycle cfg env) vars) = message.
Proof.
  intros Hi Hne. destruct (interprets_to_classify env vars message Hi) as [d Hc].
  rewrite main_cycle_sends, main_cycle_previous_message, Hc.
  rewrite (eqb_neq_false _ _ Hne). split; reflexivity.
Qed.

End Cycle.

End Homework.

(** * Concrete runs *)


Example parse_status_approved :
  result_of (parse_status repr_basic (homework_x "approved")) tt = inr approved_text.
Proof. reflexivity. Qed.

Example parse_status_unknown_status :
  result_of (parse_status repr_basic (homework_x "unknown_value")) tt =
  inl (KeyError (PStr "Неизвестный статус: 'unknown_value'")).
Proof. reflexivity. Qed.

Example unavailable_reported_once :
  bot_sends (trace_of (main_loop repr_basic cfg0
                         [env_unavailable delivering; env_unavailable delivering])
                      vars0)
  = [unavailable_text].
Proof. reflexivity. Qed.

Example recurrence_after_recovery_suppressed :
  error_sends repr_basic cfg0
    [ env_unavailable delivering; env_empty 150; env_unavailable delivering;
      env_not_a_list; env_unavailable delivering ]
    vars0
  = [unavailable_text; not_a_list_text; unavailable_text].
Proof. reflexivity. Qed.

(** C1, as stated, fails: the response has 'homeworks' as a string, so
    [check_response] raises, and the cursor has moved from 100 to the
    'current_date' 150 of the response. *)
Lemma cursor_moved_by_rejected_response :
  result_of (main_try repr_basic cfg0 env_not_a_list) vars0 =
    inl (TypeError "Данные ключа 'homeworks' не соответствует типу 'list'.")
  /\ timestamp vars0 = PInt 100
  /\ timestamp (state_of (main_cycle repr_basic cfg0 env_not_a_list) vars0) = PInt 150
  /\ timestamp (state_of (main_cycle repr_basic cfg0 env_not_a_list) vars0)
     <> timestamp vars0.
Proof.
  repeat split; try reflexivity. discriminate.
Qed.

(** A rejected response: the failure is caught and the cursor is at 150. *)
Lemma failure_is_caught_and_cursor_follows_fetch_witness :
  result_of (main_cycle repr_basic cfg0 env_not_a_list) vars0 = inr tt
  /\ timestamp (state_of (main_cycle repr_basic cfg0 env_not_a_list) vars0) = PInt 150.
Proof.
  apply (failure_is_caught_and_cursor_follows_fetch repr_basic cfg0 env_not_a_list vars0
           (TypeError "Данные ключа 'homeworks' не соответствует типу 'list'.")).
  reflexivity.
Defined.

(** A first failure, HTTP 503, is sent once and stored. *)
Lemma error_notifications_once_per_change_witness :
  bot_sends (trace_of (main_cycle repr_basic cfg0 (env_unavailable delivering)) vars0)
    = [unavailable_text]
  /\ previous_error_message
       (state_of (main_cycle repr_basic cfg0 (env_unavailable delivering)) vars0)
     = unavailable_text.
Proof.
  apply (proj1 (error_notifications_once_per_change repr_basic cfg0)
           (env_unavailable delivering) vars0 unavailable_text).
  exists (EndpointDisable "Endpoint не доступен, HTTPStatus: 503").
  split; reflexivity.
Defined.

(** Three iterations with the same approved homework: one message. *)
Lemma identical_message_sent_at_most_once_witness :
  bot_sends (trace_of (main_loop repr_basic cfg0
                         [env_approved delivering; env_approved delivering;
                          env_approved delivering])
                      vars0)
    = [approved_text]
  /\ (List.length
        (bot_sends (trace_of (main_loop repr_basic cfg0
                                [env_approved delivering; env_approved delivering;
                                 env_approved delivering])
                             vars0)) <= 1)%nat.
Proof.
  apply (identical_message_sent_at_most_once repr_basic cfg0 approved_text
           [env_approved delivering; env_approved delivering; env_approved delivering]
           vars0).
  cbn [streak].
  repeat split;
    exists (response_with (PList [homework_x "approved"]) 150), (PInt 150),
      (PList [homework_x "approved"]), (homework_x "approved");
    repeat split; reflexivity.
Defined.

(** An empty list of homeworks with the date 150. *)
Lemma empty_homeworks_silent_and_cursor_advances_witness :
  bot_sends (trace_of (main_cycle repr_basic cfg0 (env_empty 150)) vars0) = []
  /\ timestamp (state_of (main_cycle repr_basic cfg0 (env_empty 150)) vars0) = PInt 150.
Proof.
  apply (empty_homeworks_silent_and_cursor_advances repr_basic cfg0 (env_empty 150) vars0
           [("homeworks", PList []); ("current_date", PInt 150)] (PInt 150));
    reflexivity.
Defined.

(** C6, as stated, fails: the server reports the 'current_date' 50 to a
    request made with the cursor 100; the fetch succeeds and the cursor is
    set back to 50. *)
Lemma cursor_rewound_by_earlier_server_date :
  fetched repr_basic cfg0 (env_empty 50) vars0 = inr (response_with (PList []) 50)
  /\ timestamp vars0 = PInt 100
  /\ timestamp (state_of (main_cycle repr_basic cfg0 (env_empty 50)) vars0) = PInt 50
  /\ earlier (timestamp (state_of (main_cycle repr_basic cfg0 (env_empty 50)) vars0))
             (timestamp vars0).
Proof.
  repeat split; reflexivity.
Qed.

(** A server that reports 150, then 200, to the requests made with the
    cursors 100 and 150. *)
Lemma reports_150_then_200 :
  streak repr_basic cfg0 (answers_no_earlier repr_basic cfg0)
    ([env_empty 150] ++ [env_empty 200]) vars0.
Proof.
  cbn [app streak]. repeat split.
  - intros response d Hf Hd. vm_compute in Hf. injection Hf as <-.
    vm_compute in Hd. injection Hd as <-.
    exists 150%Z. split; [reflexivity |].
    intros z Hz. vm_compute in Hz. injection Hz as <-. lia.
  - intros response d Hf Hd. vm_compute in Hf. injection Hf as <-.
    vm_compute in Hd. injection Hd as <-.
    exists 200%Z. split; [reflexivity |].
    intros z Hz. vm_compute in Hz. injection Hz as <-. lia.
Defined.

(** Two iterations: the cursor goes from 100 to 150 to 200. *)
Lemma cursor_follows_server_date_witness :
  exists z1 z2,
    timestamp (state_of (main_loop repr_basic cfg0 [env_empty 150]) vars0) = PInt z1
    /\ timestamp (state_of (main_loop repr_basic cfg0 ([env_empty 150] ++ [env_empty 200]))
                    vars0) = PInt z2
    /\ (100 <= z1 <= z2)%Z.
Proof.
  apply (proj2 (cursor_follows_server_date repr_basic cfg0)
           [env_empty 150] [env_empty 200] vars0 100%Z).
  - reflexivity.
  - exact reports_150_then_200.
Defined.

(** An empty TELEGRAM_TOKEN. *)
Lemma missing_token_halts_before_loop_witness :
  exists msg,
    main repr_basic accepting
      {| PRACTICUM_TOKEN := "practicum-token";
         TELEGRAM_TOKEN := EmptyString;
         TELEGRAM_CHAT_ID := "42" |}
      100 delivering [env_approved delivering]
    = (Halted, [Log CRITICAL msg])
    /\ http_gets (snd (main repr_basic accepting
                         {| PRACTICUM_TOKEN := "practicum-token";
                            TELEGRAM_TOKEN := EmptyString;
                            TELEGRAM_CHAT_ID := "42" |}
                         100 delivering [env_approved delivering])) = []
    /\ bot_sends (snd (main repr_basic accepting
                         {| PRACTICUM_TOKEN := "practicum-token";
                            TELEGRAM_TOKEN := EmptyString;
                            TELEGRAM_CHAT_ID := "42" |}
                         100 delivering [env_approved delivering])) = [].
Proof.
  apply (missing_token_halts_before_loop repr_basic accepting
           {| PRACTICUM_TOKEN := "practicum-token";
              TELEGRAM_TOKEN := EmptyString;
              TELEGRAM_CHAT_ID := "42" |}
           100%Z delivering [env_approved delivering]).
  right. left. reflexivity.
Defined.

(** The approved message meets a transport that raises; it is stored, and
    two more iterations with the same homework send nothing. *)
Lemma memory_overwritten_when_delivery_fails_witness :
  bot_sends (trace_of (main_cycle repr_basic cfg0 (env_approved failing)) vars0)
    = [approved_text]
  /\ previous_message (state_of (main_cycle repr_basic cfg0 (env_approved failing)) vars0)
     = approved_text
  /\ bot_sends
       (trace_of (main_loop repr_basic cfg0 [env_approved delivering; env_approved failing])
          (state_of (main_cycle repr_basic cfg0 (env_approved failing)) vars0)) = [].
Proof.
  assert (Hreads : forall world vars,
             interprets_to repr_basic cfg0 (env_approved world) vars approved_text).
  { intros world vars.
    exists (response_with (PList [homework_x "approved"]) 150), (PInt 150),
      (PList [homework_x "approved"]), (homework_x "approved").
    repeat split; reflexivity. }
  assert (Hnew : approved_text <> previous_message vars0) by discriminate.
  destruct (proj1 (memory_overwritten_when_delivery_fails repr_basic cfg0)
              (env_approved failing) vars0 approved_text (OtherException "Timed out")
              [env_approved delivering; env_approved failing]
              (Hreads failing vars0) Hnew eq_refl)
    as (_ & Hsent & Hstored & Hlater).
  split; [exact Hsent | split; [exact Hstored |]].
  apply Hlater. cbn [streak]. repeat split; apply Hreads.
Defined.

(** A response without 'current_date': the failure is the [KeyError] of the
    subscript. *)
Lemma validator_current_date_test_unreachable_witness :
  exists error,
    result_of (getitem (PDict [("homeworks", PList [])]) "current_date") tt = inl error
    /\ result_of (main_try repr_basic cfg0 env_no_date) vars0 = inl error
    /\ error <> missing_current_date
    /\ state_of (main_try repr_basic cfg0 env_no_date) vars0 = vars0.
Proof.
  apply (proj1 (validator_current_date_test_unreachable repr_basic cfg0 env_no_date vars0
                  (PDict [("homeworks", PList [])]) eq_refl)).
  reflexivity.
Defined.

(** ** Concrete runs of the further properties *)

Lemma tokens_present_cfg0 : tokens_present cfg0.
Proof.
  repeat split; discriminate.
Defined.

(** The three tokens of [cfg0] are there. *)
Lemma check_tokens_returns_iff_witness :
  result_of (check_tokens cfg0) tt = inr tt.
Proof.
  apply (proj2 (check_tokens_returns_iff cfg0 unit tt)). exact tokens_present_cfg0.
Defined.

(** TELEGRAM_TOKEN and TELEGRAM_CHAT_ID are both empty: the first is named. *)
Lemma check_tokens_reports_first_missing_witness :
  result_of (check_tokens {| PRACTICUM_TOKEN := "practicum-token";
                             TELEGRAM_TOKEN := EmptyString;
                             TELEGRAM_CHAT_ID := EmptyString |}) tt
  = inl (missing_variable "TELEGRAM_TOKEN").
Proof.
  apply (proj1 (proj2 (check_tokens_reports_first_missing
                         {| PRACTICUM_TOKEN := "practicum-token";
                            TELEGRAM_TOKEN := EmptyString;
                            TELEGRAM_CHAT_ID := EmptyString |} unit tt)));
    [discriminate | reflexivity].
Defined.

Lemma check_response_returns_iff_witness :
  result_of (check_response sample_response) tt = inr (PList []).
Proof.
  apply (proj2 (check_response_returns_iff unit tt sample_response (PList []))).
  exists [("homeworks", PList []); ("current_date", PInt 1)], [].
  repeat split.
Defined.

(** 'homeworks' is a string and 'current_date' is absent: the missing key is
    reported, not the type of 'homeworks'. *)
Lemma check_response_rejections_witness :
  result_of (check_response (PDict [("homeworks", PStr "x")])) tt
  = inl missing_current_date.
Proof.
  apply (proj1 (proj2 (proj2 (check_response_rejections unit tt)))
           [("homeworks", PStr "x")] (PStr "x"));
    reflexivity.
Defined.

Lemma get_api_answer_returns_iff_witness :
  result_of (get_api_answer repr_basic cfg0 (answers 200 sample_response) (PInt 100)) tt
  = inr sample_response.
Proof.
  apply (proj2 (get_api_answer_returns_iff repr_basic cfg0 unit tt
                  (answers 200 sample_response) (PInt 100) sample_response)).
  eexists. repeat split.
Defined.

(** HTTP 503. *)
Lemma get_api_answer_failures_witness :
  exists response,
    answers 503 PNone (PInt 100) = inr response
    /\ status_code response <> 200%Z
    /\ EndpointDisable "Endpoint не доступен, HTTPStatus: 503"
       = EndpointDisable ("Endpoint не доступен, HTTPStatus: "
                          ++ str repr_basic (PInt (status_code response))).
Proof.
  destruct (get_api_answer_failures repr_basic cfg0 unit tt (answers 503 PNone) (PInt 100)
              (EndpointDisable "Endpoint не доступен, HTTPStatus: 503") eq_refl)
    as [(t & H & _) | [(H & _) | [H | [(r & t & H & Hc & _) | (r & H & Hc & _)]]]];
    try discriminate H.
  - exact H.
  - injection H as <-. discriminate Hc.
  - injection H as <-. discriminate Hc.
Defined.

Lemma parse_status_returns_iff_witness :
  result_of (parse_status repr_basic (homework_x "approved")) tt = inr approved_text.
Proof.
  apply (proj2 (parse_status_returns_iff repr_basic unit tt (homework_x "approved")
                  approved_text)).
  exists [("homework_name", PStr "Project X"); ("lesson_name", PStr "Sprint 1");
          ("status", PStr "approved")],
    "approved", "Работа проверена: ревьюеру всё понравилось. Ура!".
  repeat split.
Defined.

(** A homework with a status and without a name. *)
Lemma parse_status_missing_name_witness :
  result_of (parse_status repr_basic (PDict [("status", PStr "approved")])) tt
  = inl (KeyError (PStr "Ключ 'homework_name' отсутствует в 'homework'")).
Proof.
  apply (parse_status_missing_name repr_basic unit tt (PDict [("status", PStr "approved")])).
  reflexivity.
Defined.

(** A homework with a name and without a status. *)
Lemma parse_status_absent_status_witness :
  result_of (parse_status repr_basic (PDict [("homework_name", PStr "Project X")])) tt
  = inl (KeyError (PStr "status")).
Proof.
  apply (parse_status_absent_status repr_basic unit tt [("homework_name", PStr "Project X")]);
    reflexivity.
Defined.

Lemma parse_status_rejects_unknown_status_witness :
  result_of (parse_status repr_basic (homework_x "unknown_value")) tt
  = inl (KeyError (PStr "Неизвестный статус: 'unknown_value'")).
Proof.
  apply (proj1 (parse_status_rejects_unknown_status repr_basic unit tt
                  [("homework_name", PStr "Project X"); ("lesson_name", PStr "Sprint 1");
                   ("status", PStr "unknown_value")]
                  (PStr "unknown_value") eq_refl eq_refl)).
  reflexivity.
Defined.

(** The same homework approved and rejected. *)
Lemma parse_status_distinguishes_statuses_witness :
  exists message1 message2,
    result_of (parse_status repr_basic (homework_x "approved")) tt = inr message1
    /\ result_of (parse_status repr_basic (homework_x "rejected")) tt = inr message2
    /\ message1 <> message2.
Proof.
  eexists. eexists. split; [reflexivity | split; [reflexivity |]].
  apply (parse_status_distinguishes_statuses repr_basic unit tt
           [("homework_name", PStr "Project X"); ("lesson_name", PStr "Sprint 1");
            ("status", PStr "approved")]
           [("homework_name", PStr "Project X"); ("lesson_name", PStr "Sprint 1");
            ("status", PStr "rejected")]);
    try reflexivity.
  discriminate.
Defined.

(** [main] with the tokens of [cfg0], a constructor that returns, a
    transport that raises and two iterations. *)
Lemma main_starts_polling_witness :
  fst (main repr_basic accepting cfg0 100 failing
         [env_unavailable failing; env_approved failing])
  = Polling (state_of (main_loop repr_basic cfg0
                         [env_unavailable failing; env_approved failing])
                      (start_vars 100)).
Proof.
  exact (f_equal fst
           (main_starts_polling repr_basic accepting cfg0 100 failing
              [env_unavailable failing; env_approved failing] tokens_present_cfg0)).
Defined.

Example refused_token_crashes_before_greeting :
  main repr_basic refusing cfg0 100 delivering [env_approved delivering]
  = (Crashed (OtherException "Invalid token"), []).
Proof. reflexivity. Qed.

Lemma message_notifications_once_per_change_witness :
  message_of repr_basic cfg0 (env_approved delivering) vars0 = Some approved_text.
Proof.
  apply (proj2 (proj1 (message_notifications_once_per_change repr_basic cfg0)
                  (env_approved delivering) vars0 approved_text)).
  exists (response_with (PList [homework_x "approved"]) 150), (PInt 150),
    (PList [homework_x "approved"]), (homework_x "approved").
  repeat split; reflexivity.
Defined.

Lemma new_message_is_sent_witness :
  bot_sends (trace_of (main_cycle repr_basic cfg0 (env_approved delivering)) vars0)
    = [approved_text]
  /\ previous_message (state_of (main_cycle repr_basic cfg0 (env_approved delivering)) vars0)
     = approved_text.
Proof.
  apply (new_message_is_sent repr_basic cfg0 (env_approved delivering) vars0 approved_text).
  - exists (response_with (PList [homework_x "approved"]) 150), (PInt 150),
      (PList [homework_x "approved"]), (homework_x "approved").
    repeat split; reflexivity.
  - discriminate.
Defined.

Example run_with_recovery_requests :
  http_gets (trace_of (main_loop repr_basic cfg0
                         [env_unavailable delivering; env_approved delivering;
                          env_not_a_list; env_unavailable delivering])
                      vars0)
  = [PInt 100; PInt 100; PInt 150; PInt 150].
Proof. reflexivity. Qed.

Example undecodable_body_raises_type_error :
  result_of
    (get_api_answer repr_basic cfg0
       (fun _ => inr {| status_code := 200;
                        text := "not json";
                        json := inl (JSONDecodeError "Expecting value") |})
       (PInt 100)) tt
  = inl (TypeError
           "JSONDecodeError.__init__() missing 2 required positional arguments: 'doc' and 'pos'").
Proof. reflexivity. Qed.

Example decode_error_of_the_request_is_endpoint_disable :
  result_of
    (get_api_answer repr_basic cfg0
       (fun _ => inl (JSONDecodeError "Expecting value")) (PInt 100)) tt
  = inl (EndpointDisable "Неуспешный запрос: 'Expecting value'.").
Proof. reflexivity. Qed.
